(** * MonkeySeeMonkeyDrum: the MIDI helper and the window's handlers

    A shallow embedding of [src/midi/midi_manager.py] and of the slots of
    [src/gui/main_window.py].  The Python objects are mutable and the calls
    into [mido] can raise, so the methods are written in a small
    state-and-exception monad over the state of the process.  The [mido]
    library, the port objects it hands out and the registered callback are
    external: they are an interface ([Backend]) over an arbitrary world, and
    every call made through it is recorded in a trace. *)

From Stdlib Require Import String List Bool ZArith Lia.
Import ListNotations.
Local Open Scope string_scope.

(** ** Python values *)

(** An instance of [Exception]; [exn_str] is what [str(e)] gives in the
    f-strings of the source.  Only [Exception] instances are modelled: these
    are what a failing device raises and what [except Exception] catches. *)
Record exn := PyException { exn_str : string }.

(** Outcome of a Python call: a returned value or a raised exception. *)
Inductive result (A : Type) :=
| Ok (a : A)
| Raise (e : exn).
Arguments Ok {A} a.
Arguments Raise {A} e.

Definition raises {A} (r : result A) : bool :=
  match r with Ok _ => false | Raise _ => true end.

(** A port object returned by [mido.open_output] / [mido.open_input]. *)
Definition port := nat.

(** A callable given to [select_input]. *)
Definition callback := nat.

(** The reading of [time.monotonic()]; the code only passes it on. *)
Definition timestamp := Z.

(** [mido.Message(type, channel=, note=, velocity=)]. *)
Record Message := mkMessage {
  msg_type : string;
  channel : Z;
  note : Z;
  velocity : Z
}.

Definition nl : string := String (Ascii.ascii_of_nat 10) EmptyString.

(** ** The external world *)

(** What the code calls outside itself.  Each call may change the world and
    may raise. *)
Record Backend (W : Type) := mkBackend {
  mido_get_output_names : W -> result (list string) * W;
  mido_get_input_names : W -> result (list string) * W;
  mido_open_output : string -> W -> result port * W;
  mido_open_input : string -> W -> result port * W;
  port_send : port -> Message -> W -> result unit * W;
  port_close : port -> W -> result unit * W;
  time_monotonic : W -> timestamp;
  call_callback : callback -> Message -> timestamp -> W -> result unit * W
}.
Arguments mido_get_output_names {W}.
Arguments mido_get_input_names {W}.
Arguments mido_open_output {W}.
Arguments mido_open_input {W}.
Arguments port_send {W}.
Arguments port_close {W}.
Arguments time_monotonic {W}.
Arguments call_callback {W}.

(** The calls made through the backend, in the order they were made. *)
Inductive Call :=
| CallGetOutputNames
| CallGetInputNames
| CallOpenOutput (name : string)
| CallOpenInput (name : string)
| CallSend (p : port) (m : Message)
| CallClose (p : port)
| CallCallback (cb : callback) (m : Message) (ts : timestamp).

(** ** The objects *)

(** The attributes set by [MidiManager.__init__]. *)
Record MidiManagerAttrs := mkMidiManager {
  current_output_name : option string;
  current_output : option port;
  current_input_name : option string;
  current_input : option port;
  input_callback : option callback
}.

Record QPushButton := mkButton {
  button_text : string;
  button_enabled : bool;
  button_checkable : bool;
  button_checked : bool
}.

Record QComboBox := mkCombo {
  combo_items : list string;
  combo_enabled : bool;
  combo_index : Z;
  combo_signals_blocked : bool
}.

Record QLabel := mkLabel {
  label_text : string;
  label_style : string
}.

(** The widgets kept as attributes of [MainWindow]. *)
Record Widgets := mkWidgets {
  play_button : QPushButton;
  stop_button : QPushButton;
  record_button : QPushButton;
  input_combo : QComboBox;
  output_combo : QComboBox;
  test_note_button : QPushButton;
  refresh_midi_button : QPushButton;
  placeholder_label : QLabel
}.

(** The state of the process: the world outside, what was called in it, what
    was printed, and the two objects. *)
Record Proc (W : Type) := mkProc {
  world : W;
  trace : list Call;
  console : list string;
  midi_manager : MidiManagerAttrs;
  widgets : Widgets
}.
Arguments mkProc {W}.
Arguments world {W}.
Arguments trace {W}.
Arguments console {W}.
Arguments midi_manager {W}.
Arguments widgets {W}.

(** ** The monad *)

Definition M (W A : Type) : Type := Proc W -> result A * Proc W.

Definition ret {W A} (a : A) : M W A := fun s => (Ok a, s).

Definition bind {W A B} (m : M W A) (k : A -> M W B) : M W B :=
  fun s => match m s with
           | (Ok a, s') => k a s'
           | (Raise e, s') => (Raise e, s')
           end.

(** [try: m except Exception as e: h e]. *)
Definition try_except {W A} (m : M W A) (h : exn -> M W A) : M W A :=
  fun s => match m s with
           | (Ok a, s') => (Ok a, s')
           | (Raise e, s') => h e s'
           end.

Declare Scope py_scope.
Delimit Scope py_scope with py.
Notation "x <- m ;; k" := (bind m (fun x => k))
  (at level 61, m at next level, right associativity) : py_scope.
Notation "m ;; k" := (bind m (fun _ => k))
  (at level 61, right associativity) : py_scope.
Local Open Scope py_scope.

Definition gets {W A} (f : Proc W -> A) : M W A := fun s => (Ok (f s), s).

Definition print {W} (line : string) : M W unit :=
  fun s => (Ok tt, mkProc (world s) (trace s) (console s ++ [line])
                          (midi_manager s) (widgets s)).

Definition set_manager {W} (f : MidiManagerAttrs -> MidiManagerAttrs) : M W unit :=
  fun s => (Ok tt, mkProc (world s) (trace s) (console s)
                          (f (midi_manager s)) (widgets s)).

Definition set_widgets {W} (f : Widgets -> Widgets) : M W unit :=
  fun s => (Ok tt, mkProc (world s) (trace s) (console s)
                          (midi_manager s) (f (widgets s))).

(** A call through the backend: recorded, then run in the world. *)
Definition extern {W A} (c : Call) (f : W -> result A * W) : M W A :=
  fun s => let (r, w') := f (world s) in
           (r, mkProc w' (trace s ++ [c]) (console s)
                      (midi_manager s) (widgets s)).

(** Attribute assignments of [MidiManager]. *)
Definition with_current_output (v : option port) (m : MidiManagerAttrs) :=
  mkMidiManager (current_output_name m) v (current_input_name m)
                (current_input m) (input_callback m).
Definition with_current_output_name (v : option string) (m : MidiManagerAttrs) :=
  mkMidiManager v (current_output m) (current_input_name m)
                (current_input m) (input_callback m).
Definition with_current_input (v : option port) (m : MidiManagerAttrs) :=
  mkMidiManager (current_output_name m) (current_output m)
                (current_input_name m) v (input_callback m).
Definition with_current_input_name (v : option string) (m : MidiManagerAttrs) :=
  mkMidiManager (current_output_name m) (current_output m) v
                (current_input m) (input_callback m).
Definition with_input_callback (v : option callback) (m : MidiManagerAttrs) :=
  mkMidiManager (current_output_name m) (current_output m)
                (current_input_name m) (current_input m) v.

(** [not name] for a [str]. *)
Definition falsy (name : string) : bool :=
  match name with EmptyString => true | _ => false end.

(** ** [class MidiManager] *)

Module MidiManager.
Section Methods.
Context {W : Type} (mido : Backend W).

(** [__init__]. *)
Definition __init__ : MidiManagerAttrs := mkMidiManager None None None None None.

Definition list_output_ports : M W (list string) :=
  try_except
    (extern CallGetOutputNames (mido_get_output_names mido))
    (fun e => print ("Error listing MIDI output ports: " ++ exn_str e) ;;
              ret []).

Definition select_output (name : string) : M W bool :=
  cur <- gets (fun s => current_output (midi_manager s)) ;;
  match cur with
  | Some p =>
      try_except (extern (CallClose p) (port_close mido p))
                 (fun _ => ret tt) ;;
      set_manager (with_current_output None) ;;
      set_manager (with_current_output_name None)
  | None => ret tt
  end ;;
  if falsy name then ret false
  else
    try_except
      (p <- extern (CallOpenOutput name) (mido_open_output mido name) ;;
       set_manager (with_current_output (Some p)) ;;
       set_manager (with_current_output_name (Some name)) ;;
       print ("Opened MIDI output: " ++ name) ;;
       ret true)
      (fun e =>
         print ("Error opening MIDI output " ++ name ++ ": " ++ exn_str e) ;;
         set_manager (with_current_output None) ;;
         set_manager (with_current_output_name None) ;;
         ret false).

(** [mido.Message("note_on", channel=0, note=60, velocity=100)]. *)
Definition msg_on : Message := mkMessage "note_on" 0 60 100.

Definition send_test_note : M W unit :=
  cur <- gets (fun s => current_output (midi_manager s)) ;;
  match cur with
  | None => print "No MIDI output selected / open."
  | Some p =>
      extern (CallSend p msg_on) (port_send mido p msg_on) ;;
      print "Sent test drum note (note 60)."
  end.

Definition send_message (msg : Message) : M W unit :=
  cur <- gets (fun s => current_output (midi_manager s)) ;;
  match cur with
  | None => print "No MIDI output selected / open"
  | Some p => extern (CallSend p msg) (port_send mido p msg)
  end.

Definition list_input_ports : M W (list string) :=
  try_except
    (extern CallGetInputNames (mido_get_input_names mido))
    (fun e => print ("Error listing MIDI input ports: " ++ exn_str e) ;;
              ret []).

Definition select_input (name : string) (cb : option callback) : M W bool :=
  cur <- gets (fun s => current_input (midi_manager s)) ;;
  match cur with
  | Some p =>
      try_except (extern (CallClose p) (port_close mido p))
                 (fun _ => ret tt) ;;
      set_manager (with_current_input None) ;;
      set_manager (with_current_input_name None) ;;
      set_manager (with_input_callback None)
  | None => ret tt
  end ;;
  if falsy name then ret false
  else
    set_manager (with_input_callback cb) ;;
    try_except
      (p <- extern (CallOpenInput name) (mido_open_input mido name) ;;
       set_manager (with_current_input (Some p)) ;;
       set_manager (with_current_input_name (Some name)) ;;
       print ("Opened MIDI input: " ++ name) ;;
       ret true)
      (fun e =>
         print ("Error opening MIDI input " ++ name ++ ": " ++ exn_str e) ;;
         set_manager (with_current_input None) ;;
         set_manager (with_current_input_name None) ;;
         set_manager (with_input_callback None) ;;
         ret false).

Definition _handle_input_message (message : Message) : M W unit :=
  ts <- gets (fun s => time_monotonic mido (world s)) ;;
  cb <- gets (fun s => input_callback (midi_manager s)) ;;
  match cb with
  | Some f =>
      try_except
        (extern (CallCallback f message ts) (call_callback mido f message ts))
        (fun e => print ("Error in input_callback: " ++ exn_str e))
  | None => ret tt
  end.

Definition close_all : M W unit :=
  out <- gets (fun s => current_output (midi_manager s)) ;;
  match out with
  | Some p =>
      try_except (extern (CallClose p) (port_close mido p))
                 (fun _ => ret tt) ;;
      set_manager (with_current_output None) ;;
      set_manager (with_current_output_name None)
  | None => ret tt
  end ;;
  inp <- gets (fun s => current_input (midi_manager s)) ;;
  match inp with
  | Some p =>
      try_except (extern (CallClose p) (port_close mido p))
                 (fun _ => ret tt) ;;
      set_manager (with_current_input None) ;;
      set_manager (with_current_input_name None)
  | None => ret tt
  end.

End Methods.
End MidiManager.


(** ** [class MainWindow]: the slots *)

(** [self.placeholder_label.setText(t)]. *)
Definition placeholder_setText (t : string) (w : Widgets) : Widgets :=
  mkWidgets (play_button w) (stop_button w) (record_button w)
            (input_combo w) (output_combo w) (test_note_button w)
            (refresh_midi_button w)
            (mkLabel t (label_style (placeholder_label w))).

(** [self.record_button.setText(t)]. *)
Definition record_setText (t : string) (w : Widgets) : Widgets :=
  mkWidgets (play_button w) (stop_button w)
            (mkButton t (button_enabled (record_button w))
                      (button_checkable (record_button w))
                      (button_checked (record_button w)))
            (input_combo w) (output_combo w) (test_note_button w)
            (refresh_midi_button w) (placeholder_label w).

(** [name in (a, b)]. *)
Definition name_in (name a b : string) : bool :=
  String.eqb name a || String.eqb name b.

(** ** [QComboBox] and [QPushButton] operations used by the window

    The record keeps the items, the enabled flag, the current index ([-1]
    when there is none) and the flag of [blockSignals]. *)

(** [combo.currentText()]: the text of the current item, empty when there
    is no current item. *)
Definition combo_currentText (c : QComboBox) : string :=
  if (combo_index c <? 0)%Z then ""
  else nth (Z.to_nat (combo_index c)) (combo_items c) "".

Definition combo_blockSignals (b : bool) (c : QComboBox) : QComboBox :=
  mkCombo (combo_items c) (combo_enabled c) (combo_index c) b.

(** [combo.clear()]: no item, no current index. *)
Definition combo_clear (c : QComboBox) : QComboBox :=
  mkCombo [] (combo_enabled c) (-1) (combo_signals_blocked c).

(** [combo.addItems(texts)]: the items are appended; rows inserted into an
    empty combo make the first one current. *)
Definition combo_addItems (texts : list string) (c : QComboBox) : QComboBox :=
  mkCombo (combo_items c ++ texts) (combo_enabled c)
          (match combo_items c, texts with
           | [], _ :: _ => if (combo_index c <? 0)%Z then 0%Z else combo_index c
           | _, _ => combo_index c
           end)
          (combo_signals_blocked c).

(** [combo.addItem(text)]. *)
Definition combo_addItem (text : string) (c : QComboBox) : QComboBox :=
  combo_addItems [text] c.

Definition combo_setEnabled (b : bool) (c : QComboBox) : QComboBox :=
  mkCombo (combo_items c) b (combo_index c) (combo_signals_blocked c).

(** [combo.setItemData(i, value, role)] with the role [Qt.UserRole - 1]: the
    value is kept by the item under that role, which is none of the
    properties of the record (the source: "doesn't affect logic"). *)
Definition combo_setItemData (i value : Z) (c : QComboBox) : QComboBox := c.

(** [combo.setCurrentIndex(i)]: an index that names no item gives no current
    item. *)
Definition combo_setCurrentIndex (i : Z) (c : QComboBox) : QComboBox :=
  mkCombo (combo_items c) (combo_enabled c)
          (if (0 <=? i)%Z && (i <? Z.of_nat (length (combo_items c)))%Z
           then i else (-1)%Z)
          (combo_signals_blocked c).

Definition button_setEnabled (b : bool) (k : QPushButton) : QPushButton :=
  mkButton (button_text k) b (button_checkable k) (button_checked k).

Definition button_setCheckable (b : bool) (k : QPushButton) : QPushButton :=
  mkButton (button_text k) (button_enabled k) b (button_checked k).

Definition with_output_combo (c : QComboBox) (w : Widgets) : Widgets :=
  mkWidgets (play_button w) (stop_button w) (record_button w)
            (input_combo w) c (test_note_button w)
            (refresh_midi_button w) (placeholder_label w).

Definition with_input_combo (c : QComboBox) (w : Widgets) : Widgets :=
  mkWidgets (play_button w) (stop_button w) (record_button w)
            c (output_combo w) (test_note_button w)
            (refresh_midi_button w) (placeholder_label w).

Definition with_test_note_button (k : QPushButton) (w : Widgets) : Widgets :=
  mkWidgets (play_button w) (stop_button w) (record_button w)
            (input_combo w) (output_combo w) k
            (refresh_midi_button w) (placeholder_label w).

(** [not ports]. *)
Definition empty_list {A} (l : list A) : bool :=
  match l with [] => true | _ => false end.

(** [for x in xs: body x]. *)
Fixpoint for_each {W A} (xs : list A) (body : A -> M W unit) : M W unit :=
  match xs with
  | [] => ret tt
  | x :: xs' => body x ;; for_each xs' body
  end.

(** A change [f] of a combo box: when its signals are not blocked and the
    current text is no longer the same, [currentTextChanged] runs the
    connected slot, if any, with the new text. *)
Definition combo_change {W}
    (get : Widgets -> QComboBox) (set : QComboBox -> Widgets -> Widgets)
    (slot : option (string -> M W unit))
    (f : QComboBox -> QComboBox) : M W unit :=
  old <- gets (fun s => get (widgets s)) ;;
  set_widgets (set (f old)) ;;
  match slot with
  | Some k =>
      if combo_signals_blocked old then ret tt
      else if String.eqb (combo_currentText old) (combo_currentText (f old))
           then ret tt
           else k (combo_currentText (f old))
  | None => ret tt
  end.

(** The widgets built by [_create_central_widget] before the combos are
    filled (layout, size policy, alignment and the two anonymous labels are
    outside the record). *)
Definition created_widgets : Widgets :=
  mkWidgets
    (mkButton "Play" true false false)
    (mkButton "Stop" true false false)
    (button_setCheckable true (mkButton "Record" true false false))
    (mkCombo [] true (-1) false)
    (mkCombo [] true (-1) false)
    (mkButton "Test Note" true false false)
    (mkButton "Refresh MIDI" true false false)
    (mkLabel ("Drum MIDI App" ++ nl ++ "(Timeline / Drum Grid will go here)")
             "font-size: 18px; color: #555;").

Module MainWindow.
Section Slots.
Context {W : Type} (mido : Backend W).

Definition _on_play_clicked : M W unit :=
  print "Play clicked" ;;
  set_widgets
    (placeholder_setText ("Play clicked" ++ nl ++ "(Placeholder: no audio yet)")).

Definition _on_stop_clicked : M W unit :=
  print "Stop clicked" ;;
  set_widgets
    (placeholder_setText
       ("Stop clicked" ++ nl ++ "(Placeholder: transport stopped)")).

Definition _on_record_toggled (checked : bool) : M W unit :=
  if checked then
    print "Record started" ;;
    set_widgets (record_setText "Recording...") ;;
    set_widgets
      (placeholder_setText ("Recording..." ++ nl ++ "(Placeholder: no MIDI yet)"))
  else
    print "Record stopped" ;;
    set_widgets (record_setText "Record") ;;
    set_widgets
      (placeholder_setText
         ("Recording stopped" ++ nl ++ "(Timeline / Drum Grid will go here)")).

Definition _on_output_changed (name : string) : M W unit :=
  if falsy name || name_in name "Select MIDI Output" "No MIDI outputs"
  then ret tt
  else
    ok <- MidiManager.select_output mido name ;;
    if ok : bool then
      set_widgets (placeholder_setText ("Selected MIDI output:" ++ nl ++ name))
    else
      set_widgets
        (placeholder_setText ("Failed to open MIDI output:" ++ nl ++ name)).

Definition _on_input_changed (name : string) : M W unit :=
  if falsy name || name_in name "Select MIDI Input" "No MIDI inputs"
  then ret tt
  else
    ok <- MidiManager.select_input mido name None ;;
    if ok : bool then
      set_widgets
        (placeholder_setText
           ("Selected MIDI input:" ++ nl ++ name ++ nl
            ++ "Incoming MIDI will be printed to the console."))
    else
      set_widgets
        (placeholder_setText ("Failed to open MIDI input:" ++ nl ++ name)).

Definition _on_test_note_clicked : M W unit :=
  cur <- gets (fun s => current_output (midi_manager s)) ;;
  match cur with
  | None =>
      set_widgets
        (placeholder_setText
           ("No MIDI output selected." ++ nl
            ++ "Choose a device from the 'Out' dropdown first.")) ;;
      print "Test Note clicked, but no MIDI output selected."
  | Some _ =>
      MidiManager.send_test_note mido ;;
      set_widgets
        (placeholder_setText
           ("Sent test drum note." ++ nl
            ++ "If nothing is heard, check your MIDI routing."))
  end.

(** The slot connected to [currentTextChanged] of a combo: none before
    [_connect_signals] has run. *)
Definition output_slot (connected : bool) : option (string -> M W unit) :=
  if connected then Some _on_output_changed else None.

Definition input_slot (connected : bool) : option (string -> M W unit) :=
  if connected then Some _on_input_changed else None.

Definition _refresh_midi_outputs (connected : bool) : M W unit :=
  let change := combo_change output_combo with_output_combo
                             (output_slot connected) in
  ports <- MidiManager.list_output_ports mido ;;
  change (combo_blockSignals true) ;;
  change combo_clear ;;
  (if empty_list ports then
     change (combo_addItem "No MIDI outputs") ;;
     change (combo_setEnabled false) ;;
     set_widgets
       (fun w => with_test_note_button
                   (button_setEnabled false (test_note_button w)) w)
   else
     change (combo_addItem "Select MIDI Output") ;;
     change (combo_setItemData 0 0) ;;
     change (combo_addItems ports) ;;
     change (combo_setEnabled true) ;;
     set_widgets
       (fun w => with_test_note_button
                   (button_setEnabled true (test_note_button w)) w) ;;
     change (combo_setCurrentIndex 0)) ;;
  change (combo_blockSignals false).

Definition _refresh_midi_inputs (connected : bool) : M W unit :=
  let change := combo_change input_combo with_input_combo
                             (input_slot connected) in
  ports <- MidiManager.list_input_ports mido ;;
  change (combo_blockSignals true) ;;
  change combo_clear ;;
  (if empty_list ports then
     change (combo_addItem "No MIDI inputs") ;;
     change (combo_setEnabled false)
   else
     change (combo_addItem "Select MIDI Input") ;;
     change (combo_setItemData 0 0) ;;
     change (combo_addItems ports) ;;
     change (combo_setEnabled true) ;;
     change (combo_setCurrentIndex 0)) ;;
  change (combo_blockSignals false).

Definition _log_available_midi_ports : M W unit :=
  out_ports <- MidiManager.list_output_ports mido ;;
  in_ports <- MidiManager.list_input_ports mido ;;
  print "MIDI outputs:" ;;
  (if empty_list out_ports then print "  (none)"
   else for_each out_ports (fun name => print ("  - " ++ name))) ;;
  print "MIDI inputs:" ;;
  (if empty_list in_ports then print "  (none)"
   else for_each in_ports (fun name => print ("  - " ++ name))) ;;
  if empty_list out_ports && empty_list in_ports then
    set_widgets
      (placeholder_setText
         ("No MIDI inputs or outputs found." ++ nl
          ++ "(Is a virtual or hardware MIDI device available?)"))
  else
    print ("MIDI ports detected." ++ nl
           ++ "Select In/Out at the top and use 'Test Note'.").

Definition _on_refresh_midi_clicked : M W unit :=
  print "Refreshing MIDI inputs/outputs..." ;;
  _refresh_midi_outputs true ;;
  _refresh_midi_inputs true ;;
  _log_available_midi_ports ;;
  set_widgets (placeholder_setText ("Refreshed MIDI ports." ++ nl)).

(** The widgets are created, then the combos are filled; no slot is
    connected yet. *)
Definition _create_central_widget : M W unit :=
  set_widgets (fun _ => created_widgets) ;;
  _refresh_midi_outputs false ;;
  _refresh_midi_inputs false.

(** [MainWindow.__init__]: the title and the size of the window are outside
    the record; [_connect_signals] changes no widget and is the reason why
    the later refreshes run with the slots connected. *)
Definition __init__ : M W unit :=
  set_manager (fun _ => MidiManager.__init__) ;;
  _create_central_widget ;;
  _log_available_midi_ports.

End Slots.
End MainWindow.

(** ** Runs of the program *)

(** The calls the window, the device layer and a client can make. *)
Inductive Op :=
| Op_list_output_ports
| Op_list_input_ports
| Op_select_output (name : string)
| Op_select_input (name : string) (cb : option callback)
| Op_send_test_note
| Op_send_message (msg : Message)
| Op_handle_input_message (msg : Message)
| Op_close_all
| Op_play_clicked
| Op_stop_clicked
| Op_record_toggled (checked : bool)
| Op_output_changed (name : string)
| Op_input_changed (name : string)
| Op_test_note_clicked.

Section Runs.
Context {W : Type} (mido : Backend W).

(** The state a call leaves behind, whether it returned or raised. *)
Definition run (op : Op) (s : Proc W) : Proc W :=
  match op with
  | Op_list_output_ports => snd (MidiManager.list_output_ports mido s)
  | Op_list_input_ports => snd (MidiManager.list_input_ports mido s)
  | Op_select_output name => snd (MidiManager.select_output mido name s)
  | Op_select_input name cb => snd (MidiManager.select_input mido name cb s)
  | Op_send_test_note => snd (MidiManager.send_test_note mido s)
  | Op_send_message msg => snd (MidiManager.send_message mido msg s)
  | Op_handle_input_message msg => snd (MidiManager._handle_input_message mido msg s)
  | Op_close_all => snd (MidiManager.close_all mido s)
  | Op_play_clicked => snd (MainWindow._on_play_clicked s)
  | Op_stop_clicked => snd (MainWindow._on_stop_clicked s)
  | Op_record_toggled checked => snd (MainWindow._on_record_toggled checked s)
  | Op_output_changed name => snd (MainWindow._on_output_changed mido name s)
  | Op_input_changed name => snd (MainWindow._on_input_changed mido name s)
  | Op_test_note_clicked => snd (MainWindow._on_test_note_clicked mido s)
  end.

(** The device world may change between two calls (a cable is pulled). *)
Definition with_world (w : W) (s : Proc W) : Proc W :=
  mkProc w (trace s) (console s) (midi_manager s) (widgets s).

(** States of the process: a fresh [MidiManager] in some world with some
    widgets, then any sequence of calls and of changes of the world. *)
Inductive reachable : Proc W -> Prop :=
| reach_init (w : W) (ui : Widgets) :
    reachable (mkProc w [] [] MidiManager.__init__ ui)
| reach_run (op : Op) (s : Proc W) :
    reachable s -> reachable (run op s)
| reach_world (w : W) (s : Proc W) :
    reachable s -> reachable (with_world w s).

End Runs.

(** [current_output] is [None] exactly when [current_output_name] is, and the
    same for the input. *)
Definition is_none {A} (o : option A) : bool :=
  match o with None => true | Some _ => false end.

Definition paired (m : MidiManagerAttrs) : bool :=
  Bool.eqb (is_none (current_output m)) (is_none (current_output_name m))
  && Bool.eqb (is_none (current_input m)) (is_none (current_input_name m)).

(** ** Characterisation of the closing blocks *)

Section Blocks.
Context {W : Type} (mido : Backend W).

(** The state after lines 38-44 of [select_output] (the same block opens
    [close_all]): an open output port is closed, any error of [close()] is
    dropped, and both output attributes are cleared. *)
Definition closed_output (s : Proc W) : Proc W :=
  match current_output (midi_manager s) with
  | None => s
  | Some p =>
      mkProc (snd (port_close mido p (world s))) (trace s ++ [CallClose p])
             (console s)
             (with_current_output_name None
                (with_current_output None (midi_manager s)))
             (widgets s)
  end.

(** The state after lines 143-149 of [close_all]. *)
Definition closed_input (s : Proc W) : Proc W :=
  match current_input (midi_manager s) with
  | None => s
  | Some p =>
      mkProc (snd (port_close mido p (world s))) (trace s ++ [CallClose p])
             (console s)
             (with_current_input_name None
                (with_current_input None (midi_manager s)))
             (widgets s)
  end.

(** The state after lines 93-100 of [select_input], which clears the callback
    as well. *)
Definition released_input (s : Proc W) : Proc W :=
  match current_input (midi_manager s) with
  | None => s
  | Some p =>
      mkProc (snd (port_close mido p (world s))) (trace s ++ [CallClose p])
             (console s)
             (with_input_callback None
                (with_current_input_name None
                   (with_current_input None (midi_manager s))))
             (widgets s)
  end.

End Blocks.

(** ** A test bench

    A concrete world: one rig that can be unplugged.  While it is plugged the
    listed ports open, send and close; once it is unplugged every call into
    it raises. *)

Module Bench.

Record Rig := mkRig {
  plugged : bool;
  out_names : list string;
  in_names : list string;
  next_port : port;
  clock : timestamp
}.

Definition unavailable : exn := PyException "device unavailable".

Definition guard {A} (w : Rig) (a : A) (w' : Rig) : result A * Rig :=
  if plugged w then (Ok a, w') else (Raise unavailable, w).

Definition bump (w : Rig) : Rig :=
  mkRig (plugged w) (out_names w) (in_names w) (S (next_port w)) (clock w).

Definition open_in (names : list string) (name : string) (w : Rig)
  : result port * Rig :=
  if existsb (String.eqb name) names
  then guard w (next_port w) (bump w)
  else (Raise (PyException ("unknown port " ++ name)), w).

(** Callback [0] raises, every other callback returns. *)
Definition backend : Backend Rig :=
  mkBackend Rig
    (fun w => guard w (out_names w) w)
    (fun w => guard w (in_names w) w)
    (fun name w => open_in (out_names w) name w)
    (fun name w => open_in (in_names w) name w)
    (fun _ _ w => guard w tt w)
    (fun _ w => guard w tt w)
    clock
    (fun cb _ _ w =>
       if Nat.eqb cb 0 then (Raise (PyException "callback failed"), w)
       else (Ok tt, w)).

Definition rig : Rig := mkRig true ["Drum"; "Synth"] ["Pads"] 1 5000%Z.

Definition unplug (w : Rig) : Rig :=
  mkRig false (out_names w) (in_names w) (next_port w) (clock w).

(** The widgets as [_create_central_widget] leaves them on this rig. *)
Definition ui : Widgets :=
  mkWidgets
    (mkButton "Play" true false false)
    (mkButton "Stop" true false false)
    (mkButton "Record" true true false)
    (mkCombo ["Select MIDI Input"; "Pads"] true 0 false)
    (mkCombo ["Select MIDI Output"; "Drum"; "Synth"] true 0 false)
    (mkButton "Test Note" true false false)
    (mkButton "Refresh MIDI" true false false)
    (mkLabel ("Drum MIDI App" ++ nl ++ "(Timeline / Drum Grid will go here)")
             "font-size: 18px; color: #555;").

Definition boot : Proc Rig := mkProc rig [] [] MidiManager.__init__ ui.

(** The output "Drum" is selected. *)
Definition drum_selected : Proc Rig := run backend (Op_select_output "Drum") boot.

(** ... and then the cable is pulled. *)
Definition drum_unplugged : Proc Rig :=
  with_world (unplug (world drum_selected)) drum_selected.

(** Output and input selected, the input with the raising callback. *)
Definition both_selected : Proc Rig :=
  run backend (Op_select_input "Pads" (Some 0%nat)) drum_selected.

End Bench.

(** ** The transport state machine of the specification *)

Module TransportController.

(** Modelled from the spec: the TransportController of section 4.5.  The
    repository has no transport state machine (the Play, Stop and Record
    slots of [MainWindow] only set texts), so the states, the table of legal
    transitions and the rejection of every other transition are taken from
    sections 4.5 and 7 of the specification. *)
Inductive TransportState := Stopped | Playing | Recording | Paused.

Inductive TransportError := InvalidStateError.

(** Stopped->Playing, Stopped->Recording, Playing/Recording->Paused,
    Paused->Playing/Recording, any->Stopped. *)
Definition legal (from to : TransportState) : bool :=
  match from, to with
  | Stopped, Playing => true
  | Stopped, Recording => true
  | Playing, Paused => true
  | Recording, Paused => true
  | Paused, Playing => true
  | Paused, Recording => true
  | _, Stopped => true
  | _, _ => false
  end.

(** Ask for a transition: a legal one is taken, an illegal one is rejected
    with [InvalidStateError] and changes nothing. *)
Definition request (to : TransportState) (st : TransportState)
  : (unit + TransportError) * TransportState :=
  if legal st to then (inl tt, to) else (inr InvalidStateError, st).

Definition start_recording := request Recording.
Definition start_playing := request Playing.

End TransportController.

(** ** Frame of the transport slots *)

(** [w'] differs from [w] at most in the text of the placeholder label and
    in the caption of the Record button. *)
Definition same_but_texts (w w' : Widgets) : Prop :=
  play_button w' = play_button w /\
  stop_button w' = stop_button w /\
  button_enabled (record_button w') = button_enabled (record_button w) /\
  button_checkable (record_button w') = button_checkable (record_button w) /\
  button_checked (record_button w') = button_checked (record_button w) /\
  input_combo w' = input_combo w /\
  output_combo w' = output_combo w /\
  test_note_button w' = test_note_button w /\
  refresh_midi_button w' = refresh_midi_button w /\
  label_style (placeholder_label w') = label_style (placeholder_label w).

(** Nothing was called in the world, the [MidiManager] is as it was, and the
    widgets differ at most in the two texts. *)
Definition only_texts {W} (s s' : Proc W) : Prop :=
  world s' = world s /\
  trace s' = trace s /\
  midi_manager s' = midi_manager s /\
  same_but_texts (widgets s) (widgets s').

(** ** Vocabulary of the further properties *)

(** What a listing method returns: the names, or nothing after an error. *)
Definition listed {A} (r : result (list A)) : list A :=
  match r with Ok l => l | Raise _ => [] end.

(** The calls made between a state and a later one. *)
Definition new_calls {W} (s s' : Proc W) : list Call :=
  skipn (length (trace s)) (trace s').

Definition opt_list {A} (o : option A) : list A :=
  match o with Some a => [a] | None => [] end.

(** The combo box a refresh leaves: one disabled entry when there is no
    port, else the placeholder followed by the ports; the first entry is
    current and the signals are unblocked. *)
Definition filled_combo (placeholder none_text : string) (ports : list string)
  : QComboBox :=
  if empty_list ports then mkCombo [none_text] false 0 false
  else mkCombo (placeholder :: ports) true 0 false.

(** The lines [_log_available_midi_ports] prints for one list of ports. *)
Definition port_lines (ports : list string) : list string :=
  if empty_list ports then ["  (none)"]
  else map (fun name => "  - " ++ name) ports.

(** The entries of the combos that are not ports. *)
Definition ignored_output_name (name : string) : bool :=
  falsy name || name_in name "Select MIDI Output" "No MIDI outputs".

Definition ignored_input_name (name : string) : bool :=
  falsy name || name_in name "Select MIDI Input" "No MIDI inputs".

(** What the user and the device layer can do once the window is built. *)
Inductive Event :=
| Ev_play
| Ev_stop
| Ev_record (checked : bool)
| Ev_output_text (name : string)
| Ev_input_text (name : string)
| Ev_test_note
| Ev_refresh
| Ev_midi_in (msg : Message).

Section WindowRuns.
Context {W : Type} (mido : Backend W).

Definition handle (ev : Event) (s : Proc W) : Proc W :=
  match ev with
  | Ev_play => snd (MainWindow._on_play_clicked s)
  | Ev_stop => snd (MainWindow._on_stop_clicked s)
  | Ev_record checked => snd (MainWindow._on_record_toggled checked s)
  | Ev_output_text name => snd (MainWindow._on_output_changed mido name s)
  | Ev_input_text name => snd (MainWindow._on_input_changed mido name s)
  | Ev_test_note => snd (MainWindow._on_test_note_clicked mido s)
  | Ev_refresh => snd (MainWindow._on_refresh_midi_clicked mido s)
  | Ev_midi_in msg => snd (MidiManager._handle_input_message mido msg s)
  end.

(** The states of the application: the window is constructed, then events
    are handled and the device world changes. *)
Inductive app_state : Proc W -> Prop :=
| app_start (s0 : Proc W) : app_state (snd (MainWindow.__init__ mido s0))
| app_event (ev : Event) (s : Proc W) :
    app_state s -> app_state (handle ev s)
| app_world (w : W) (s : Proc W) :
    app_state s -> app_state (with_world w s).

End WindowRuns.

(** What holds of the window in every state of the application. *)
Definition app_inv {W} (s : Proc W) : Prop :=
  input_callback (midi_manager s) = None
  /\ paired (midi_manager s) = true
  /\ button_enabled (test_note_button (widgets s))
     = combo_enabled (output_combo (widgets s))
  /\ combo_signals_blocked (output_combo (widgets s)) = false
  /\ combo_signals_blocked (input_combo (widgets s)) = false
  /\ button_checkable (record_button (widgets s)) = true.

(** A port held in [s] is still held in [s'], or [close()] was called on it
    in between. *)
Definition closes_what_it_drops {W} (s s' : Proc W) : Prop :=
  (forall p, current_output (midi_manager s) = Some p ->
             current_output (midi_manager s') = Some p
             \/ In (CallClose p) (new_calls s s'))
  /\ (forall p, current_input (midi_manager s) = Some p ->
                current_input (midi_manager s') = Some p
                \/ In (CallClose p) (new_calls s s')).

(** ** The application on the test bench *)

(** The window is constructed on the rig, "Drum" and "Pads" are chosen in
    the combos, and the ports are refreshed. *)
Definition bench_app : Proc Bench.Rig :=
  handle Bench.backend Ev_refresh
    (handle Bench.backend (Ev_input_text "Pads")
       (handle Bench.backend (Ev_output_text "Drum")
          (snd (MainWindow.__init__ Bench.backend Bench.boot)))).

(** ** Proof steps *)

(** Unfold the monad. *)
Ltac unfold_py :=
  unfold bind, try_except, gets, extern, set_manager, set_widgets, print, ret.

(** Split on the outcome of one call into the backend. *)
Ltac case_call f :=
  let r := fresh "r" in
  let w := fresh "w" in
  let E := fresh "E" in
  destruct f as [r w] eqn:E; destruct r; simpl.

(** Split a state into the attributes of its [MidiManager]. *)
Ltac by_fields s :=
  destruct s as [w t c [on o inn i cb] ui];
  destruct on, o, inn, i; simpl in *; try discriminate; try reflexivity.

(** * Properties *)

Section MethodEquations.
Context {W : Type} (mido : Backend W).

(** [select_output]: the closing block, then nothing for an empty name, else
    one [mido.open_output] whose outcome decides the attributes, the printed
    line and the returned flag. *)
Lemma select_output_eq (name : string) (s : Proc W) :
  MidiManager.select_output mido name s =
  let s1 := closed_output mido s in
  if falsy name then (Ok false, s1)
  else
    match mido_open_output mido name (world s1) with
    | (Ok p, w') =>
        (Ok true,
         mkProc w' (trace s1 ++ [CallOpenOutput name])
                (console s1 ++ ["Opened MIDI output: " ++ name])
                (with_current_output_name (Some name)
                   (with_current_output (Some p) (midi_manager s1)))
                (widgets s1))
    | (Raise e, w') =>
        (Ok false,
         mkProc w' (trace s1 ++ [CallOpenOutput name])
                (console s1
                 ++ ["Error opening MIDI output " ++ name ++ ": " ++ exn_str e])
                (with_current_output_name None
                   (with_current_output None (midi_manager s1)))
                (widgets s1))
    end.
Proof.
  unfold MidiManager.select_output, closed_output. unfold_py.
  destruct (current_output (midi_manager s)) as [p|]; simpl.
  - case_call (port_close mido p (world s));
      (destruct (falsy name); [reflexivity|]; simpl;
       case_call (mido_open_output mido name w); reflexivity).
  - destruct (falsy name); [reflexivity|]; simpl.
    case_call (mido_open_output mido name (world s)); reflexivity.
Qed.

Lemma select_input_eq (name : string) (cb : option callback) (s : Proc W) :
  MidiManager.select_input mido name cb s =
  let s1 := released_input mido s in
  if falsy name then (Ok false, s1)
  else
    match mido_open_input mido name (world s1) with
    | (Ok p, w') =>
        (Ok true,
         mkProc w' (trace s1 ++ [CallOpenInput name])
                (console s1 ++ ["Opened MIDI input: " ++ name])
                (with_current_input_name (Some name)
                   (with_current_input (Some p)
                      (with_input_callback cb (midi_manager s1))))
                (widgets s1))
    | (Raise e, w') =>
        (Ok false,
         mkProc w' (trace s1 ++ [CallOpenInput name])
                (console s1
                 ++ ["Error opening MIDI input " ++ name ++ ": " ++ exn_str e])
                (with_input_callback None
                   (with_current_input_name None
                      (with_current_input None
                         (with_input_callback cb (midi_manager s1)))))
                (widgets s1))
    end.
Proof.
  unfold MidiManager.select_input, released_input. unfold_py.
  destruct (current_input (midi_manager s)) as [p|]; simpl.
  - case_call (port_close mido p (world s));
      (destruct (falsy name); [reflexivity|]; simpl;
       case_call (mido_open_input mido name w); reflexivity).
  - destruct (falsy name); [reflexivity|]; simpl.
    case_call (mido_open_input mido name (world s)); reflexivity.
Qed.

(** [close_all] is the output block followed by the input block, and it
    returns. *)
Lemma close_all_eq (s : Proc W) :
  MidiManager.close_all mido s =
  (Ok tt, closed_input mido (closed_output mido s)).
Proof.
  unfold MidiManager.close_all, closed_input, closed_output. unfold_py.
  destruct (current_output (midi_manager s)) as [p|]; simpl.
  - case_call (port_close mido p (world s));
      (destruct (current_input (midi_manager s)) as [q|]; simpl;
       [case_call (port_close mido q w); reflexivity | reflexivity]).
  - destruct (current_input (midi_manager s)) as [q|]; simpl;
      [case_call (port_close mido q (world s)); reflexivity | ].
    destruct s; reflexivity.
Qed.

End MethodEquations.

Section ManagerFacts.
Context {W : Type} (mido : Backend W).

(** C5. [list_output_ports] and [list_input_ports] always return a list and
    never raise: when [mido] returns the names they are returned as they
    are; when [mido] raises, one line naming the error is printed and the
    empty list is returned. *)
Theorem list_ports_never_raise (s : Proc W) :
  MidiManager.list_output_ports mido s =
    match mido_get_output_names mido (world s) with
    | (Ok names, w') =>
        (Ok names,
         mkProc w' (trace s ++ [CallGetOutputNames]) (console s)
                (midi_manager s) (widgets s))
    | (Raise e, w') =>
        (Ok [],
         mkProc w' (trace s ++ [CallGetOutputNames])
                (console s ++ ["Error listing MIDI output ports: " ++ exn_str e])
                (midi_manager s) (widgets s))
    end
  /\ MidiManager.list_input_ports mido s =
    match mido_get_input_names mido (world s) with
    | (Ok names, w') =>
        (Ok names,
         mkProc w' (trace s ++ [CallGetInputNames]) (console s)
                (midi_manager s) (widgets s))
    | (Raise e, w') =>
        (Ok [],
         mkProc w' (trace s ++ [CallGetInputNames])
                (console s ++ ["Error listing MIDI input ports: " ++ exn_str e])
                (midi_manager s) (widgets s))
    end
  /\ raises (fst (MidiManager.list_output_ports mido s)) = false
  /\ raises (fst (MidiManager.list_input_ports mido s)) = false.
Proof.
  unfold MidiManager.list_output_ports, MidiManager.list_input_ports.
  unfold_py.
  repeat split.
  - case_call (mido_get_output_names mido (world s)); reflexivity.
  - case_call (mido_get_input_names mido (world s)); reflexivity.
  - case_call (mido_get_output_names mido (world s)); reflexivity.
  - case_call (mido_get_input_names mido (world s)); reflexivity.
Qed.

(** C3. [send_test_note] with an output port open makes exactly one call
    into the device: one [send] on the current output of the message
    note_on, channel 0, note 60, velocity 100 (no note_off follows), and it
    leaves the attributes of the [MidiManager] as they were; with no output
    port open it calls nothing, prints one line and changes nothing else. *)
Theorem send_test_note_sends_one_note_on (s : Proc W) :
  match current_output (midi_manager s) with
  | Some p =>
      let m := mkMessage "note_on" 0 60 100 in
      MidiManager.send_test_note mido s =
      match port_send mido p m (world s) with
      | (Ok _, w') =>
          (Ok tt,
           mkProc w' (trace s ++ [CallSend p m])
                  (console s ++ ["Sent test drum note (note 60)."])
                  (midi_manager s) (widgets s))
      | (Raise e, w') =>
          (Raise e,
           mkProc w' (trace s ++ [CallSend p m]) (console s)
                  (midi_manager s) (widgets s))
      end
  | None =>
      MidiManager.send_test_note mido s =
      (Ok tt,
       mkProc (world s) (trace s)
              (console s ++ ["No MIDI output selected / open."])
              (midi_manager s) (widgets s))
  end.
Proof.
  unfold MidiManager.send_test_note, MidiManager.msg_on. unfold_py.
  destruct (current_output (midi_manager s)) as [p|]; simpl; [|reflexivity].
  case_call (port_send mido p (mkMessage "note_on" 0 60 100) (world s));
    [destruct a|]; reflexivity.
Qed.

(** C6. [_handle_input_message] hands the message to the registered
    callback together with the reading of [time.monotonic()] taken at its
    entry; an exception of the callback is caught and printed, so the
    handler always returns; with no callback registered it returns and the
    state is exactly as before. *)
Theorem handle_input_message_relays_and_catches (msg : Message) (s : Proc W) :
  MidiManager._handle_input_message mido msg s =
    match input_callback (midi_manager s) with
    | Some f =>
        let ts := time_monotonic mido (world s) in
        match call_callback mido f msg ts (world s) with
        | (Ok _, w') =>
            (Ok tt,
             mkProc w' (trace s ++ [CallCallback f msg ts]) (console s)
                    (midi_manager s) (widgets s))
        | (Raise e, w') =>
            (Ok tt,
             mkProc w' (trace s ++ [CallCallback f msg ts])
                    (console s ++ ["Error in input_callback: " ++ exn_str e])
                    (midi_manager s) (widgets s))
        end
    | None => (Ok tt, s)
    end
  /\ raises (fst (MidiManager._handle_input_message mido msg s)) = false.
Proof.
  unfold MidiManager._handle_input_message. unfold_py.
  destruct (input_callback (midi_manager s)) as [f|]; simpl.
  - case_call (call_callback mido f msg (time_monotonic mido (world s)) (world s));
      [destruct a|]; split; reflexivity.
  - split; reflexivity.
Qed.

End ManagerFacts.

Section SelectFacts.
Context {W : Type} (mido : Backend W).

(** C4. When the open attempted by [select_output] raises, the call returns
    [False] (it does not raise), prints the error, and leaves
    [current_output] and [current_output_name] at [None]; when the open
    attempted by [select_input] raises, the call returns [False], prints the
    error, and leaves [current_input], [current_input_name] and
    [input_callback] at [None].  The open is attempted for a non-empty name,
    in the world left by the closing of the previous port. *)
Theorem select_failed_open_leaves_unselected
    (name : string) (cb : option callback) (s : Proc W) (e : exn) :
  falsy name = false ->
  (fst (mido_open_output mido name (world (closed_output mido s))) = Raise e ->
   let (r, s') := MidiManager.select_output mido name s in
   r = Ok false
   /\ current_output (midi_manager s') = None
   /\ current_output_name (midi_manager s') = None
   /\ console s' =
      (console s
       ++ [("Error opening MIDI output " ++ name ++ ": " ++ exn_str e)%string]
      )%list)
  /\
  (fst (mido_open_input mido name (world (released_input mido s))) = Raise e ->
   let (r, s') := MidiManager.select_input mido name cb s in
   r = Ok false
   /\ current_input (midi_manager s') = None
   /\ current_input_name (midi_manager s') = None
   /\ input_callback (midi_manager s') = None
   /\ console s' =
      (console s
       ++ [("Error opening MIDI input " ++ name ++ ": " ++ exn_str e)%string]
      )%list).
Proof.
  intros Hname. split; intros Hopen.
  - rewrite select_output_eq. cbv zeta. rewrite Hname.
    destruct (mido_open_output mido name (world (closed_output mido s)))
      as [r w'].
    simpl in Hopen. subst r. simpl.
    repeat split.
    unfold closed_output.
    destruct (current_output (midi_manager s)); reflexivity.
  - rewrite select_input_eq. cbv zeta. rewrite Hname.
    destruct (mido_open_input mido name (world (released_input mido s)))
      as [r w'].
    simpl in Hopen. subst r. simpl.
    repeat split.
    unfold released_input.
    destruct (current_input (midi_manager s)); reflexivity.
Qed.

(** C9. With a port open, [select_output] (resp. [select_input]) first calls
    [close()] on it, before any open, and then never has it selected again
    by itself: the call never raises; with an empty name it returns [False]
    having made no other call; whenever it returns [False] the output (resp.
    the input and the callback) is cleared, nothing of the prior selection
    being restored; and when it returns [True] the selection is the port
    that the open of this call returned, under the new name. *)
Theorem select_closes_previous_port_first
    (name : string) (cb : option callback) (s : Proc W) (p : port) :
  (current_output (midi_manager s) = Some p ->
   let (r, s') := MidiManager.select_output mido name s in
   (trace s' = (trace s ++ [CallClose p])%list
    \/ trace s' = (trace s ++ [CallClose p; CallOpenOutput name])%list)
   /\ raises r = false
   /\ (falsy name = true ->
       r = Ok false /\ trace s' = (trace s ++ [CallClose p])%list)
   /\ (r = Ok false ->
       current_output (midi_manager s') = None
       /\ current_output_name (midi_manager s') = None)
   /\ (r = Ok true ->
       current_output (midi_manager s') =
         match fst (mido_open_output mido name (world (closed_output mido s)))
         with Ok q => Some q | Raise _ => None end
       /\ current_output (midi_manager s') <> None
       /\ current_output_name (midi_manager s') = Some name))
  /\
  (current_input (midi_manager s) = Some p ->
   let (r, s') := MidiManager.select_input mido name cb s in
   (trace s' = (trace s ++ [CallClose p])%list
    \/ trace s' = (trace s ++ [CallClose p; CallOpenInput name])%list)
   /\ raises r = false
   /\ (falsy name = true ->
       r = Ok false /\ trace s' = (trace s ++ [CallClose p])%list)
   /\ (r = Ok false ->
       current_input (midi_manager s') = None
       /\ current_input_name (midi_manager s') = None
       /\ input_callback (midi_manager s') = None)
   /\ (r = Ok true ->
       current_input (midi_manager s') =
         match fst (mido_open_input mido name (world (released_input mido s)))
         with Ok q => Some q | Raise _ => None end
       /\ current_input (midi_manager s') <> None
       /\ current_input_name (midi_manager s') = Some name
       /\ input_callback (midi_manager s') = cb)).
Proof.
  split; intros Hcur.
  - rewrite select_output_eq. cbv zeta.
    destruct (falsy name) eqn:Hname.
    + unfold closed_output. rewrite Hcur. simpl.
      repeat split; try discriminate; auto.
    + destruct (mido_open_output mido name (world (closed_output mido s)))
        as [[q|e] w'] eqn:Hopen; unfold closed_output in *; rewrite Hcur in *;
        simpl; rewrite <- app_assoc; simpl;
        repeat split; try discriminate; auto.
  - rewrite select_input_eq. cbv zeta.
    destruct (falsy name) eqn:Hname.
    + unfold released_input. rewrite Hcur. simpl.
      repeat split; try discriminate; auto.
    + destruct (mido_open_input mido name (world (released_input mido s)))
        as [[q|e] w'] eqn:Hopen; unfold released_input in *; rewrite Hcur in *;
        simpl; rewrite <- app_assoc; simpl;
        repeat split; try discriminate; auto.
Qed.

End SelectFacts.

Section Invariant.
Context {W : Type} (mido : Backend W).

Lemma closed_output_paired (s : Proc W) :
  paired (midi_manager s) = true ->
  paired (midi_manager (closed_output mido s)) = true.
Proof. unfold closed_output. by_fields s. Qed.

Lemma closed_input_paired (s : Proc W) :
  paired (midi_manager s) = true ->
  paired (midi_manager (closed_input mido s)) = true.
Proof. unfold closed_input. by_fields s. Qed.

Lemma released_input_paired (s : Proc W) :
  paired (midi_manager s) = true ->
  paired (midi_manager (released_input mido s)) = true.
Proof. unfold released_input. by_fields s. Qed.

Lemma select_output_paired (name : string) (s : Proc W) :
  paired (midi_manager s) = true ->
  paired (midi_manager (snd (MidiManager.select_output mido name s))) = true.
Proof.
  intros H. apply closed_output_paired in H.
  rewrite select_output_eq. cbv zeta.
  destruct (falsy name); [exact H|].
  destruct (mido_open_output mido name (world (closed_output mido s)))
    as [[q|e] w']; simpl;
    destruct (midi_manager (closed_output mido s)) as [on o inn i cb];
    unfold paired in *; simpl in *;
    apply andb_true_iff in H; destruct H as [_ H]; exact H.
Qed.

Lemma select_input_paired (name : string) (cb : option callback) (s : Proc W) :
  paired (midi_manager s) = true ->
  paired (midi_manager (snd (MidiManager.select_input mido name cb s))) = true.
Proof.
  intros H. apply released_input_paired in H.
  rewrite select_input_eq. cbv zeta.
  destruct (falsy name); [exact H|].
  destruct (mido_open_input mido name (world (released_input mido s)))
    as [[q|e] w']; simpl;
    destruct (midi_manager (released_input mido s)) as [on o inn i cb'];
    unfold paired in *; simpl in *;
    apply andb_true_iff in H; destruct H as [H _];
    rewrite H; reflexivity.
Qed.

(** A call that only reads the attributes keeps them. *)
Lemma send_test_note_keeps_manager (s : Proc W) :
  midi_manager (snd (MidiManager.send_test_note mido s)) = midi_manager s.
Proof.
  unfold MidiManager.send_test_note. unfold_py.
  destruct (current_output (midi_manager s)) as [p|]; simpl; [|reflexivity].
  case_call (port_send mido p MidiManager.msg_on (world s)); reflexivity.
Qed.

Lemma send_message_keeps_manager (msg : Message) (s : Proc W) :
  midi_manager (snd (MidiManager.send_message mido msg s)) = midi_manager s.
Proof.
  unfold MidiManager.send_message. unfold_py.
  destruct (current_output (midi_manager s)) as [p|]; simpl; [|reflexivity].
  case_call (port_send mido p msg (world s)); reflexivity.
Qed.

Lemma list_output_ports_keeps_manager (s : Proc W) :
  midi_manager (snd (MidiManager.list_output_ports mido s)) = midi_manager s.
Proof.
  unfold MidiManager.list_output_ports. unfold_py.
  case_call (mido_get_output_names mido (world s)); reflexivity.
Qed.

Lemma list_input_ports_keeps_manager (s : Proc W) :
  midi_manager (snd (MidiManager.list_input_ports mido s)) = midi_manager s.
Proof.
  unfold MidiManager.list_input_ports. unfold_py.
  case_call (mido_get_input_names mido (world s)); reflexivity.
Qed.

Lemma handle_input_message_keeps_manager (msg : Message) (s : Proc W) :
  midi_manager (snd (MidiManager._handle_input_message mido msg s))
  = midi_manager s.
Proof.
  unfold MidiManager._handle_input_message. unfold_py.
  destruct (input_callback (midi_manager s)) as [f|]; simpl; [|reflexivity].
  case_call (call_callback mido f msg (time_monotonic mido (world s)) (world s));
    reflexivity.
Qed.

Lemma test_note_clicked_keeps_manager (s : Proc W) :
  midi_manager (snd (MainWindow._on_test_note_clicked mido s)) = midi_manager s.
Proof.
  unfold MainWindow._on_test_note_clicked, MidiManager.send_test_note.
  unfold_py. cbn beta.
  destruct (current_output (midi_manager s)) as [p|] eqn:Hcur; simpl;
    [|reflexivity].
  rewrite Hcur.
  case_call (port_send mido p MidiManager.msg_on (world s)); reflexivity.
Qed.

Lemma output_changed_paired (name : string) (s : Proc W) :
  paired (midi_manager s) = true ->
  paired (midi_manager (snd (MainWindow._on_output_changed mido name s))) = true.
Proof.
  intros H. unfold MainWindow._on_output_changed.
  destruct (falsy name || name_in name "Select MIDI Output" "No MIDI outputs");
    [exact H|].
  apply (select_output_paired name) in H.
  unfold bind.
  destruct (MidiManager.select_output mido name s) as [[[|]|e] s1];
    simpl in *; exact H.
Qed.

Lemma input_changed_paired (name : string) (s : Proc W) :
  paired (midi_manager s) = true ->
  paired (midi_manager (snd (MainWindow._on_input_changed mido name s))) = true.
Proof.
  intros H. unfold MainWindow._on_input_changed.
  destruct (falsy name || name_in name "Select MIDI Input" "No MIDI inputs");
    [exact H|].
  apply (select_input_paired name None) in H.
  unfold bind.
  destruct (MidiManager.select_input mido name None s) as [[[|]|e] s1];
    simpl in *; exact H.
Qed.

(** Every call keeps the pairing, whether it returns or raises. *)
Lemma run_paired (op : Op) (s : Proc W) :
  paired (midi_manager s) = true ->
  paired (midi_manager (run mido op s)) = true.
Proof.
  intros H. destruct op; simpl.
  - rewrite list_output_ports_keeps_manager; exact H.
  - rewrite list_input_ports_keeps_manager; exact H.
  - apply select_output_paired; exact H.
  - apply select_input_paired; exact H.
  - rewrite send_test_note_keeps_manager; exact H.
  - rewrite send_message_keeps_manager; exact H.
  - rewrite handle_input_message_keeps_manager; exact H.
  - rewrite close_all_eq. simpl.
    apply closed_input_paired, closed_output_paired; exact H.
  - exact H.
  - exact H.
  - destruct checked; exact H.
  - apply output_changed_paired; exact H.
  - apply input_changed_paired; exact H.
  - rewrite test_note_clicked_keeps_manager; exact H.
Qed.

Lemma reachable_paired (s : Proc W) :
  reachable mido s -> paired (midi_manager s) = true.
Proof.
  induction 1 as [w ui | op s Hs IH | w s Hs IH].
  - reflexivity.
  - apply run_paired; exact IH.
  - exact IH.
Qed.

(** C8. [current_output] is [None] exactly when [current_output_name] is,
    and [current_input] is [None] exactly when [current_input_name] is: the
    pairing holds after [__init__], every call of a method or of a slot
    keeps it (whether the call returns or raises), and so it holds in every
    reachable state. *)
Theorem reachable_ports_paired (op : Op) (s : Proc W) :
  paired MidiManager.__init__ = true
  /\ (paired (midi_manager s) = true ->
      paired (midi_manager (run mido op s)) = true)
  /\ (reachable mido s -> paired (midi_manager s) = true).
Proof.
  split; [reflexivity|]. split.
  - apply run_paired.
  - apply reachable_paired.
Qed.

(** The closing blocks leave the port they close at [None]. *)
Lemma closed_output_none (s : Proc W) :
  current_output (midi_manager (closed_output mido s)) = None.
Proof.
  unfold closed_output.
  destruct (current_output (midi_manager s)) eqn:E; [reflexivity | exact E].
Qed.

Lemma closed_input_none (s : Proc W) :
  current_input (midi_manager (closed_input mido s)) = None.
Proof.
  unfold closed_input.
  destruct (current_input (midi_manager s)) eqn:E; [reflexivity | exact E].
Qed.

Lemma closed_input_keeps_output (s : Proc W) :
  current_output (midi_manager (closed_input mido s))
  = current_output (midi_manager s)
  /\ current_output_name (midi_manager (closed_input mido s))
     = current_output_name (midi_manager s).
Proof.
  unfold closed_input.
  destruct (current_input (midi_manager s)); split; reflexivity.
Qed.

(** C10. [close_all] never raises and leaves [current_output] and
    [current_input] at [None]; from a state where the ports are paired with
    their names (every reachable state is) it leaves [current_output_name]
    and [current_input_name] at [None] too; and a second [close_all] calls
    nothing and changes nothing. *)
Theorem close_all_clears_and_is_idempotent (s : Proc W) :
  let s' := snd (MidiManager.close_all mido s) in
  fst (MidiManager.close_all mido s) = Ok tt
  /\ current_output (midi_manager s') = None
  /\ current_input (midi_manager s') = None
  /\ (paired (midi_manager s) = true ->
      current_output_name (midi_manager s') = None
      /\ current_input_name (midi_manager s') = None)
  /\ MidiManager.close_all mido s' = (Ok tt, s').
Proof.
  cbv zeta. rewrite close_all_eq. simpl.
  assert (Ho : current_output
                 (midi_manager (closed_input mido (closed_output mido s)))
               = None).
  { rewrite (proj1 (closed_input_keeps_output _)). apply closed_output_none. }
  assert (Hi := closed_input_none (closed_output mido s)).
  split; [reflexivity|]. split; [exact Ho|]. split; [exact Hi|]. split.
  - intros H. apply closed_output_paired, closed_input_paired in H.
    revert H Ho Hi.
    destruct (midi_manager (closed_input mido (closed_output mido s)))
      as [on o inn i cb].
    unfold paired; simpl. intros H -> ->.
    destruct on, inn; try discriminate; split; reflexivity.
  - rewrite close_all_eq. f_equal.
    set (s' := closed_input mido (closed_output mido s)) in *.
    assert (Hs' : closed_output mido s' = s')
      by (unfold closed_output; rewrite Ho; reflexivity).
    rewrite Hs'. unfold closed_input. rewrite Hi. reflexivity.
Qed.

End Invariant.

Section WindowFacts.
Context {W : Type}.

Lemma placeholder_setText_same_but_texts (t : string) (w : Widgets) :
  same_but_texts w (placeholder_setText t w).
Proof. repeat split. Qed.

Lemma record_and_placeholder_same_but_texts (t u : string) (w : Widgets) :
  same_but_texts w (placeholder_setText t (record_setText u w)).
Proof. repeat split. Qed.

(** C2. The Play, Stop and Record slots return after printing one line and
    setting the text of the placeholder label (the Record slot also sets the
    caption of the Record button).  Nothing is called in the device world,
    the attributes of the [MidiManager] (ports, names, callback) are as
    before, and every other widget, and every other property of the two
    widgets written, is as before. *)
Theorem transport_slots_only_set_texts (checked : bool) (s : Proc W) :
  (let (r, s') := MainWindow._on_play_clicked s in
   r = Ok tt /\ only_texts s s'
   /\ console s' = (console s ++ ["Play clicked"])%list
   /\ label_text (placeholder_label (widgets s'))
      = "Play clicked" ++ nl ++ "(Placeholder: no audio yet)"
   /\ record_button (widgets s') = record_button (widgets s))
  /\
  (let (r, s') := MainWindow._on_stop_clicked s in
   r = Ok tt /\ only_texts s s'
   /\ console s' = (console s ++ ["Stop clicked"])%list
   /\ label_text (placeholder_label (widgets s'))
      = "Stop clicked" ++ nl ++ "(Placeholder: transport stopped)"
   /\ record_button (widgets s') = record_button (widgets s))
  /\
  (let (r, s') := MainWindow._on_record_toggled checked s in
   r = Ok tt /\ only_texts s s'
   /\ console s' =
      (console s ++ [if checked then "Record started" else "Record stopped"])%list
   /\ label_text (placeholder_label (widgets s'))
      = (if checked
         then "Recording..." ++ nl ++ "(Placeholder: no MIDI yet)"
         else "Recording stopped" ++ nl ++ "(Timeline / Drum Grid will go here)")
   /\ button_text (record_button (widgets s'))
      = (if checked then "Recording..." else "Record")).
Proof.
  split; [|split].
  - unfold MainWindow._on_play_clicked. unfold_py. simpl.
    split; [reflexivity|]. split.
    + repeat split.
    + repeat split.
  - unfold MainWindow._on_stop_clicked. unfold_py. simpl.
    split; [reflexivity|]. split.
    + repeat split.
    + repeat split.
  - unfold MainWindow._on_record_toggled.
    destruct checked; unfold_py; simpl;
      (split; [reflexivity|]; split; repeat split).
Qed.

End WindowFacts.

Section Boundary.
Context {W : Type} (mido : Backend W).

(** The methods that wrap their calls in [try] never raise. *)
Lemma guarded_methods_never_raise
    (name : string) (cb : option callback) (msg : Message) (s : Proc W) :
  raises (fst (MidiManager.select_output mido name s)) = false
  /\ raises (fst (MidiManager.select_input mido name cb s)) = false
  /\ raises (fst (MidiManager.close_all mido s)) = false.
Proof.
  rewrite select_output_eq, select_input_eq, close_all_eq. cbv zeta.
  split; [|split].
  - destruct (falsy name); [reflexivity|].
    destruct (mido_open_output mido name (world (closed_output mido s)))
      as [[q|e] w']; reflexivity.
  - destruct (falsy name); [reflexivity|].
    destruct (mido_open_input mido name (world (released_input mido s)))
      as [[q|e] w']; reflexivity.
  - reflexivity.
Qed.

(** [send_test_note] and [send_message] have no [try] around [send]: what
    [send] raises is what they raise. *)
Lemma send_failure_propagates
    (msg : Message) (s : Proc W) (p : port) (e : exn) :
  current_output (midi_manager s) = Some p ->
  (fst (port_send mido p MidiManager.msg_on (world s)) = Raise e ->
   fst (MidiManager.send_test_note mido s) = Raise e)
  /\ (fst (port_send mido p msg (world s)) = Raise e ->
      fst (MidiManager.send_message mido msg s) = Raise e).
Proof.
  intros Hcur.
  unfold MidiManager.send_test_note, MidiManager.send_message. unfold_py.
  cbn beta. rewrite Hcur. split; intros Hsend.
  - destruct (port_send mido p MidiManager.msg_on (world s)) as [r w'].
    simpl in Hsend. subst r. reflexivity.
  - destruct (port_send mido p msg (world s)) as [r w'].
    simpl in Hsend. subst r. reflexivity.
Qed.

End Boundary.

(** ** On the test bench *)

Lemma drum_unplugged_reachable : reachable Bench.backend Bench.drum_unplugged.
Proof.
  unfold Bench.drum_unplugged, Bench.drum_selected.
  apply reach_world, reach_run. apply reach_init.
Qed.

(** C1. A device failure is not always caught at the [MidiManager]
    boundary: [send_test_note] and [send_message] let it through.  With the
    output "Drum" selected and the rig then unplugged (a reachable state),
    the exception raised by [send] leaves [send_test_note], [send_message]
    and the Test Note slot of the window, which does not catch it either.
    The other methods do catch ([guarded_methods_never_raise]). *)
Theorem send_failure_escapes_the_manager :
  reachable Bench.backend Bench.drum_unplugged
  /\ fst (MidiManager.send_test_note Bench.backend Bench.drum_unplugged)
     = Raise Bench.unavailable
  /\ fst (MidiManager.send_message Bench.backend (mkMessage "note_on" 9 36 90)
            Bench.drum_unplugged)
     = Raise Bench.unavailable
  /\ fst (MainWindow._on_test_note_clicked Bench.backend Bench.drum_unplugged)
     = Raise Bench.unavailable.
Proof.
  split; [exact drum_unplugged_reachable|].
  repeat split; vm_compute; reflexivity.
Qed.

(** C7. Starting Recording while Playing is rejected with
    [InvalidStateError] and the state stays Playing (in the transition table
    of the specification). *)
Theorem start_recording_while_playing_rejected :
  TransportController.start_recording TransportController.Playing
  = (inr TransportController.InvalidStateError, TransportController.Playing).
Proof. reflexivity. Qed.

(** ** Runs on the bench *)

Example test_note_on_bench :
  trace (snd (MidiManager.send_test_note Bench.backend Bench.drum_selected))
  = [CallOpenOutput "Drum"; CallSend 1 (mkMessage "note_on" 0 60 100)].
Proof. reflexivity. Qed.

Example test_note_without_output :
  MidiManager.send_test_note Bench.backend Bench.boot
  = (Ok tt,
     mkProc Bench.rig [] ["No MIDI output selected / open."]
            MidiManager.__init__ Bench.ui).
Proof. reflexivity. Qed.

Example raising_callback_is_caught :
  let (r, s') :=
    MidiManager._handle_input_message Bench.backend
      (mkMessage "note_on" 9 36 90) Bench.both_selected in
  r = Ok tt
  /\ trace s' =
     [CallOpenOutput "Drum"; CallOpenInput "Pads";
      CallCallback 0 (mkMessage "note_on" 9 36 90) 5000%Z]
  /\ console s' =
     ["Opened MIDI output: Drum"; "Opened MIDI input: Pads";
      "Error in input_callback: callback failed"].
Proof. repeat split. Qed.

Example listing_on_unplugged_rig :
  MidiManager.list_output_ports Bench.backend Bench.drum_unplugged
  = (Ok [],
     mkProc (world Bench.drum_unplugged)
            [CallOpenOutput "Drum"; CallGetOutputNames]
            ["Opened MIDI output: Drum";
             "Error listing MIDI output ports: device unavailable"]
            (midi_manager Bench.drum_unplugged) Bench.ui).
Proof. reflexivity. Qed.

Example reselect_on_unplugged_rig :
  let (r, s') :=
    MidiManager.select_output Bench.backend "Synth" Bench.drum_unplugged in
  r = Ok false
  /\ trace s' = [CallOpenOutput "Drum"; CallClose 1; CallOpenOutput "Synth"]
  /\ midi_manager s' = MidiManager.__init__.
Proof. repeat split. Qed.

Example record_toggle_on_bench :
  let (r, s') := MainWindow._on_record_toggled true Bench.both_selected in
  r = Ok tt
  /\ button_text (record_button (widgets s')) = "Recording..."
  /\ button_checked (record_button (widgets s')) = false
  /\ midi_manager s' = midi_manager Bench.both_selected
  /\ trace s' = trace Bench.both_selected.
Proof. repeat split. Qed.

(** ** Instances *)

Lemma select_failed_open_leaves_unselected_witness :
  (let (r, s') :=
     MidiManager.select_output Bench.backend "Synth" Bench.drum_unplugged in
   r = Ok false
   /\ current_output (midi_manager s') = None
   /\ current_output_name (midi_manager s') = None
   /\ console s' =
      ["Opened MIDI output: Drum";
       "Error opening MIDI output Synth: device unavailable"])
  /\
  (let (r, s') :=
     MidiManager.select_input Bench.backend "Pads" (Some 3%nat)
                              Bench.drum_unplugged in
   r = Ok false
   /\ current_input (midi_manager s') = None
   /\ current_input_name (midi_manager s') = None
   /\ input_callback (midi_manager s') = None
   /\ console s' =
      ["Opened MIDI output: Drum";
       "Error opening MIDI input Pads: device unavailable"]).
Proof.
  destruct (select_failed_open_leaves_unselected Bench.backend
              "Synth" (Some 3%nat) Bench.drum_unplugged Bench.unavailable
              eq_refl) as [Hout _].
  destruct (select_failed_open_leaves_unselected Bench.backend
              "Pads" (Some 3%nat) Bench.drum_unplugged Bench.unavailable
              eq_refl) as [_ Hin].
  split; [apply Hout | apply Hin]; reflexivity.
Defined.

Lemma select_closes_previous_port_first_witness :
  (let (r, s') :=
     MidiManager.select_output Bench.backend "" Bench.both_selected in
   r = Ok false
   /\ trace s' = [CallOpenOutput "Drum"; CallOpenInput "Pads"; CallClose 1]
   /\ current_output (midi_manager s') = None
   /\ current_output_name (midi_manager s') = None)
  /\
  (let (r, s') :=
     MidiManager.select_input Bench.backend "" None Bench.both_selected in
   r = Ok false
   /\ trace s' = [CallOpenOutput "Drum"; CallOpenInput "Pads"; CallClose 2]
   /\ current_input (midi_manager s') = None
   /\ current_input_name (midi_manager s') = None
   /\ input_callback (midi_manager s') = None).
Proof.
  destruct (select_closes_previous_port_first Bench.backend
              "" None Bench.both_selected 1%nat) as [Hout _].
  destruct (select_closes_previous_port_first Bench.backend
              "" None Bench.both_selected 2%nat) as [_ Hin].
  specialize (Hout eq_refl). specialize (Hin eq_refl).
  destruct (MidiManager.select_output Bench.backend "" Bench.both_selected)
    as [r s1].
  destruct (MidiManager.select_input Bench.backend "" None Bench.both_selected)
    as [r' s2].
  destruct Hout as (_ & _ & He & Hf & _).
  destruct Hin as (_ & _ & He' & Hf' & _).
  destruct (He eq_refl) as [Hr Ht]. destruct (He' eq_refl) as [Hr' Ht'].
  destruct (Hf Hr) as [H1 H2]. destruct (Hf' Hr') as (H3 & H4 & H5).
  repeat split; assumption.
Defined.

Lemma reachable_ports_paired_witness :
  reachable Bench.backend Bench.drum_unplugged
  /\ paired (midi_manager Bench.drum_unplugged) = true
  /\ paired (midi_manager
               (run Bench.backend (Op_select_input "Pads" None)
                    Bench.drum_unplugged)) = true.
Proof.
  destruct (reachable_ports_paired Bench.backend (Op_select_input "Pads" None)
              Bench.drum_unplugged) as (_ & Hrun & Hreach).
  assert (R : reachable Bench.backend Bench.drum_unplugged)
    by apply reach_world, reach_run, reach_init.
  split; [exact R|]. split.
  - exact (Hreach R).
  - exact (Hrun eq_refl).
Defined.

Lemma close_all_clears_and_is_idempotent_witness :
  paired (midi_manager Bench.both_selected) = true
  /\ midi_manager (snd (MidiManager.close_all Bench.backend Bench.both_selected))
     = mkMidiManager None None None None (Some 0%nat).
Proof.
  split; [reflexivity|].
  destruct (close_all_clears_and_is_idempotent Bench.backend Bench.both_selected)
    as (_ & Ho & Hi & Hn & _).
  destruct (Hn eq_refl) as [Hon Hin].
  destruct (midi_manager (snd (MidiManager.close_all Bench.backend
                                 Bench.both_selected)))
    as [on o inn i cb] eqn:E.
  simpl in *. subst. f_equal.
  change cb with (input_callback (mkMidiManager None None None None cb)).
  rewrite <- E. reflexivity.
Defined.

(** * Further properties of [MidiManager] *)

Section ManagerMore.
Context {W : Type} (mido : Backend W).

Lemma bind_ok {A B} (m : M W A) (k : A -> M W B) (s s' : Proc W) (a : A) :
  m s = (Ok a, s') -> bind m k s = k a s'.
Proof. intros H. unfold bind. rewrite H. reflexivity. Qed.

Lemma new_calls_app (s s' : Proc W) (l : list Call) :
  trace s' = (trace s ++ l)%list -> new_calls s s' = l.
Proof.
  unfold new_calls. intros ->.
  induction (trace s) as [|c t IH]; simpl; [reflexivity | exact IH].
Qed.

Lemma handle_input_message_eq (msg : Message) (s : Proc W) :
  MidiManager._handle_input_message mido msg s =
  match input_callback (midi_manager s) with
  | Some f =>
      let ts := time_monotonic mido (world s) in
      match call_callback mido f msg ts (world s) with
      | (Ok _, w') =>
          (Ok tt,
           mkProc w' (trace s ++ [CallCallback f msg ts]) (console s)
                  (midi_manager s) (widgets s))
      | (Raise e, w') =>
          (Ok tt,
           mkProc w' (trace s ++ [CallCallback f msg ts])
                  (console s ++ ["Error in input_callback: " ++ exn_str e])
                  (midi_manager s) (widgets s))
      end
  | None => (Ok tt, s)
  end.
Proof.
  unfold MidiManager._handle_input_message. unfold_py.
  destruct (input_callback (midi_manager s)) as [f|]; simpl; [|reflexivity].
  case_call (call_callback mido f msg (time_monotonic mido (world s)) (world s));
    [destruct a|]; reflexivity.
Qed.

Lemma send_message_eq (msg : Message) (s : Proc W) :
  MidiManager.send_message mido msg s =
  match current_output (midi_manager s) with
  | Some p =>
      let (r, w') := port_send mido p msg (world s) in
      (r, mkProc w' (trace s ++ [CallSend p msg]) (console s)
                 (midi_manager s) (widgets s))
  | None =>
      (Ok tt,
       mkProc (world s) (trace s) (console s ++ ["No MIDI output selected / open"])
              (midi_manager s) (widgets s))
  end.
Proof.
  unfold MidiManager.send_message. unfold_py.
  destruct (current_output (midi_manager s)) as [p|]; reflexivity.
Qed.

Lemma send_test_note_eq (s : Proc W) :
  MidiManager.send_test_note mido s =
  match current_output (midi_manager s) with
  | Some p =>
      match port_send mido p MidiManager.msg_on (world s) with
      | (Ok _, w') =>
          (Ok tt,
           mkProc w' (trace s ++ [CallSend p MidiManager.msg_on])
                  (console s ++ ["Sent test drum note (note 60)."])
                  (midi_manager s) (widgets s))
      | (Raise e, w') =>
          (Raise e,
           mkProc w' (trace s ++ [CallSend p MidiManager.msg_on]) (console s)
                  (midi_manager s) (widgets s))
      end
  | None =>
      (Ok tt,
       mkProc (world s) (trace s)
              (console s ++ ["No MIDI output selected / open."])
              (midi_manager s) (widgets s))
  end.
Proof.
  unfold MidiManager.send_test_note. unfold_py.
  destruct (current_output (midi_manager s)) as [p|]; simpl; [|reflexivity].
  case_call (port_send mido p MidiManager.msg_on (world s)); reflexivity.
Qed.

(** X1. Selecting an output never touches the input side (port, name,
    callback) and selecting an input never touches the output side. *)
Theorem select_keeps_other_side
    (name : string) (cb : option callback) (s : Proc W) :
  let so := snd (MidiManager.select_output mido name s) in
  let si := snd (MidiManager.select_input mido name cb s) in
  current_input (midi_manager so) = current_input (midi_manager s)
  /\ current_input_name (midi_manager so) = current_input_name (midi_manager s)
  /\ input_callback (midi_manager so) = input_callback (midi_manager s)
  /\ current_output (midi_manager si) = current_output (midi_manager s)
  /\ current_output_name (midi_manager si)
     = current_output_name (midi_manager s).
Proof.
  cbv zeta. rewrite select_output_eq, select_input_eq. cbv zeta.
  assert (Ho : current_input (midi_manager (closed_output mido s))
               = current_input (midi_manager s)
               /\ current_input_name (midi_manager (closed_output mido s))
                  = current_input_name (midi_manager s)
               /\ input_callback (midi_manager (closed_output mido s))
                  = input_callback (midi_manager s)).
  { unfold closed_output.
    destruct (current_output (midi_manager s)); repeat split. }
  assert (Hi : current_output (midi_manager (released_input mido s))
               = current_output (midi_manager s)
               /\ current_output_name (midi_manager (released_input mido s))
                  = current_output_name (midi_manager s)).
  { unfold released_input.
    destruct (current_input (midi_manager s)); repeat split. }
  destruct Ho as (Ho1 & Ho2 & Ho3). destruct Hi as (Hi1 & Hi2).
  destruct (falsy name).
  - simpl. repeat split; assumption.
  - destruct (mido_open_output mido name (world (closed_output mido s)))
      as [[q|e] w1];
    destruct (mido_open_input mido name (world (released_input mido s)))
      as [[q'|e'] w2]; simpl; repeat split; assumption.
Qed.

(** X2. When the open succeeds, [select_output] returns [True], holds the
    port that [mido] returned under the given name and prints one line;
    [select_input] does the same and registers the callback it was given. *)
Theorem select_success_selects_opened_port
    (name : string) (cb : option callback) (s : Proc W) (p : port) :
  falsy name = false ->
  (fst (mido_open_output mido name (world (closed_output mido s))) = Ok p ->
   let (r, s') := MidiManager.select_output mido name s in
   r = Ok true
   /\ current_output (midi_manager s') = Some p
   /\ current_output_name (midi_manager s') = Some name
   /\ console s' = (console s ++ [("Opened MIDI output: " ++ name)%string])%list)
  /\
  (fst (mido_open_input mido name (world (released_input mido s))) = Ok p ->
   let (r, s') := MidiManager.select_input mido name cb s in
   r = Ok true
   /\ current_input (midi_manager s') = Some p
   /\ current_input_name (midi_manager s') = Some name
   /\ input_callback (midi_manager s') = cb
   /\ console s' = (console s ++ [("Opened MIDI input: " ++ name)%string])%list).
Proof.
  intros Hname. split; intros Hopen.
  - rewrite select_output_eq. cbv zeta. rewrite Hname.
    destruct (mido_open_output mido name (world (closed_output mido s)))
      as [r w'].
    simpl in Hopen. subst r. simpl.
    repeat split.
    unfold closed_output.
    destruct (current_output (midi_manager s)); reflexivity.
  - rewrite select_input_eq. cbv zeta. rewrite Hname.
    destruct (mido_open_input mido name (world (released_input mido s)))
      as [r w'].
    simpl in Hopen. subst r. simpl.
    repeat split.
    unfold released_input.
    destruct (current_input (midi_manager s)); reflexivity.
Qed.

(** X3. [close_all] is [select_output] and then [select_input] with the
    empty name, except for the callback: the same calls are made in the same
    world and the same ports and names are cleared, but [select_input]
    forgets the callback when it closes a port and [close_all] never does. *)
Theorem close_all_is_two_empty_selects
    (cb : option callback) (s : Proc W) :
  let sc := snd (MidiManager.close_all mido s) in
  let s2 := snd (MidiManager.select_input mido "" cb
                   (snd (MidiManager.select_output mido "" s))) in
  fst (MidiManager.select_output mido "" s) = Ok false
  /\ world s2 = world sc
  /\ trace s2 = trace sc
  /\ console s2 = console sc
  /\ widgets s2 = widgets sc
  /\ midi_manager s2 =
     with_input_callback
       (if is_none (current_input (midi_manager s))
        then input_callback (midi_manager s) else None)
       (midi_manager sc)
  /\ input_callback (midi_manager sc) = input_callback (midi_manager s).
Proof.
  cbv zeta. rewrite close_all_eq, select_output_eq. cbv zeta. simpl.
  rewrite select_input_eq. cbv zeta. simpl.
  unfold released_input, closed_input.
  assert (Hin : current_input (midi_manager (closed_output mido s))
                = current_input (midi_manager s)
                /\ input_callback (midi_manager (closed_output mido s))
                   = input_callback (midi_manager s)).
  { unfold closed_output.
    destruct (current_output (midi_manager s)); split; reflexivity. }
  destruct Hin as [Hin Hcb]. rewrite <- Hin, <- Hcb.
  destruct (closed_output mido s) as [w t c [on o inn i k] ui].
  simpl. destruct i; simpl; repeat split.
Qed.

(** X4. [close_all] keeps the registered callback although it closes the
    input port: a message handled after [close_all] is still handed to the
    callback registered before. *)
Theorem close_all_keeps_callback_live
    (msg : Message) (f : callback) (s : Proc W) :
  input_callback (midi_manager s) = Some f ->
  let sc := snd (MidiManager.close_all mido s) in
  current_input (midi_manager sc) = None
  /\ input_callback (midi_manager sc) = Some f
  /\ new_calls sc (snd (MidiManager._handle_input_message mido msg sc))
     = [CallCallback f msg (time_monotonic mido (world sc))].
Proof.
  intros Hcb. cbv zeta. rewrite close_all_eq. simpl.
  set (sc := closed_input mido (closed_output mido s)).
  assert (Hk : input_callback (midi_manager sc) = Some f).
  { unfold sc, closed_input, closed_output.
    destruct (current_output (midi_manager s));
      destruct (current_input (midi_manager s)) eqn:E; simpl;
      rewrite ?E; simpl; exact Hcb. }
  split; [apply closed_input_none|]. split; [exact Hk|].
  apply new_calls_app.
  rewrite handle_input_message_eq, Hk. cbv zeta.
  destruct (call_callback mido f msg (time_monotonic mido (world sc)) (world sc))
    as [[[]|e] w']; reflexivity.
Qed.

End ManagerMore.

Section ManagerCalls.
Context {W : Type} (mido : Backend W).

Lemma closed_output_keeps_input (s : Proc W) :
  current_input (midi_manager (closed_output mido s))
  = current_input (midi_manager s).
Proof.
  unfold closed_output. destruct (current_output (midi_manager s)); reflexivity.
Qed.

(** X5. [close_all] only closes: the calls it makes are one [close()] on
    the open output and then one on the open input, it prints nothing (an
    error of [close()] leaves no trace on the console) and it touches no
    widget. *)
Theorem close_all_only_closes (s : Proc W) :
  let s' := snd (MidiManager.close_all mido s) in
  new_calls s s'
  = map CallClose (opt_list (current_output (midi_manager s))
                   ++ opt_list (current_input (midi_manager s)))
  /\ console s' = console s
  /\ widgets s' = widgets s.
Proof.
  cbv zeta. rewrite close_all_eq. simpl.
  unfold closed_input. rewrite closed_output_keeps_input.
  unfold closed_output.
  destruct (current_output (midi_manager s)) as [p|];
    destruct (current_input (midi_manager s)) as [q|]; simpl;
    (split; [apply new_calls_app; simpl;
             rewrite <- ?app_assoc, ?app_nil_r; reflexivity
            | split; reflexivity]).
Qed.

(** X6. With an output open, [send_test_note] is [send_message] of the
    message note_on, channel 0, note 60, velocity 100, followed by one
    printed line when the send returned; when the send raised, both leave
    the same state and raise the same exception. *)
Theorem send_test_note_is_send_message (s : Proc W) (p : port) :
  current_output (midi_manager s) = Some p ->
  let (r, s1) :=
    MidiManager.send_message mido (mkMessage "note_on" 0 60 100) s in
  MidiManager.send_test_note mido s =
  match r with
  | Ok _ =>
      (Ok tt,
       mkProc (world s1) (trace s1)
              (console s1 ++ ["Sent test drum note (note 60)."])
              (midi_manager s1) (widgets s1))
  | Raise e => (Raise e, s1)
  end.
Proof.
  intros Hcur. rewrite send_message_eq, send_test_note_eq, Hcur.
  unfold MidiManager.msg_on.
  destruct (port_send mido p (mkMessage "note_on" 0 60 100) (world s))
    as [[[]|e] w']; reflexivity.
Qed.

(** X7. A test note after [select_output] goes to the port that this
    [select_output] opened, and to no other: when the selection returned
    [True] the only call is one [send] on the port now held; when it
    returned [False] (empty name or failed open) no call is made at all,
    even if a port was open before the selection. *)
Theorem test_note_follows_selection (name : string) (s : Proc W) :
  let (r, s1) := MidiManager.select_output mido name s in
  let s2 := snd (MidiManager.send_test_note mido s1) in
  match r with
  | Ok true =>
      exists p, current_output (midi_manager s1) = Some p
                /\ fst (mido_open_output mido name
                          (world (closed_output mido s))) = Ok p
                /\ new_calls s1 s2 = [CallSend p (mkMessage "note_on" 0 60 100)]
  | Ok false =>
      new_calls s1 s2 = []
      /\ console s2 = (console s1 ++ ["No MIDI output selected / open."])%list
  | Raise _ => False
  end.
Proof.
  rewrite select_output_eq. cbv zeta.
  assert (Hnone := closed_output_none mido s).
  destruct (falsy name).
  - rewrite send_test_note_eq, Hnone. simpl. split; [|reflexivity].
    apply new_calls_app. simpl. rewrite app_nil_r. reflexivity.
  - destruct (mido_open_output mido name (world (closed_output mido s)))
      as [[q|e] w'].
    + exists q. split; [reflexivity|]. split; [reflexivity|].
      rewrite send_test_note_eq. simpl.
      apply new_calls_app.
      destruct (port_send mido q MidiManager.msg_on w') as [[[]|e] w2];
        reflexivity.
    + rewrite send_test_note_eq. simpl. split; [|reflexivity].
      apply new_calls_app. simpl. rewrite app_nil_r. reflexivity.
Qed.

End ManagerCalls.

(** * Further properties of [MainWindow] *)

Section WindowMore.
Context {W : Type} (mido : Backend W).

Lemma list_output_ports_ok (s : Proc W) :
  MidiManager.list_output_ports mido s =
  (Ok (listed (fst (MidiManager.list_output_ports mido s))),
   snd (MidiManager.list_output_ports mido s)).
Proof.
  unfold MidiManager.list_output_ports. unfold_py.
  case_call (mido_get_output_names mido (world s)); reflexivity.
Qed.

Lemma list_input_ports_ok (s : Proc W) :
  MidiManager.list_input_ports mido s =
  (Ok (listed (fst (MidiManager.list_input_ports mido s))),
   snd (MidiManager.list_input_ports mido s)).
Proof.
  unfold MidiManager.list_input_ports. unfold_py.
  case_call (mido_get_input_names mido (world s)); reflexivity.
Qed.

(** A listing changes the world, the trace and the console only. *)
Lemma list_output_ports_frame (s : Proc W) :
  let s' := snd (MidiManager.list_output_ports mido s) in
  trace s' = (trace s ++ [CallGetOutputNames])%list
  /\ midi_manager s' = midi_manager s /\ widgets s' = widgets s.
Proof.
  unfold MidiManager.list_output_ports. unfold_py.
  case_call (mido_get_output_names mido (world s)); repeat split.
Qed.

Lemma list_input_ports_frame (s : Proc W) :
  let s' := snd (MidiManager.list_input_ports mido s) in
  trace s' = (trace s ++ [CallGetInputNames])%list
  /\ midi_manager s' = midi_manager s /\ widgets s' = widgets s.
Proof.
  unfold MidiManager.list_input_ports. unfold_py.
  case_call (mido_get_input_names mido (world s)); repeat split.
Qed.

Lemma refresh_midi_outputs_eq (connected : bool) (s : Proc W) :
  let s0 := snd (MidiManager.list_output_ports mido s) in
  let ports := listed (fst (MidiManager.list_output_ports mido s)) in
  MainWindow._refresh_midi_outputs mido connected s =
  (Ok tt,
   mkProc (world s0) (trace s0) (console s0) (midi_manager s)
          (with_output_combo
             (filled_combo "Select MIDI Output" "No MIDI outputs" ports)
             (with_test_note_button
                (button_setEnabled (negb (empty_list ports))
                                   (test_note_button (widgets s)))
                (widgets s)))).
Proof.
  cbv zeta. unfold MainWindow._refresh_midi_outputs.
  rewrite (bind_ok _ _ _ _ _ (list_output_ports_ok s)).
  destruct (list_output_ports_frame s) as (_ & Hm & Hw).
  destruct (snd (MidiManager.list_output_ports mido s)) as [w0 t0 c0 m0 ui0].
  simpl in Hm, Hw. subst m0 ui0.
  destruct (listed (fst (MidiManager.list_output_ports mido s)))
    as [|n ports];
    destruct connected; unfold combo_change, MainWindow.output_slot;
    unfold_py; simpl; rewrite ?String.eqb_refl;
    destruct (combo_signals_blocked (output_combo (widgets s)));
    simpl; reflexivity.
Qed.

(** X8. [_refresh_midi_outputs] always returns and rebuilds the output
    combo from one listing, whatever the combo held before and whether or
    not its slot is connected: no entry but "No MIDI outputs", disabled
    together with the Test Note button, when the listing is empty or failed;
    else the placeholder followed by the ports, enabled together with the
    Test Note button.  The first entry is current, the signals end
    unblocked, the slot is never run, and the [MidiManager] and the other
    widgets are as before. *)
Theorem refresh_midi_outputs_rebuilds_combo (connected : bool) (s : Proc W) :
  let s0 := snd (MidiManager.list_output_ports mido s) in
  let ports := listed (fst (MidiManager.list_output_ports mido s)) in
  MainWindow._refresh_midi_outputs mido connected s =
  (Ok tt,
   mkProc (world s0) (trace s0) (console s0) (midi_manager s)
          (with_output_combo
             (filled_combo "Select MIDI Output" "No MIDI outputs" ports)
             (with_test_note_button
                (button_setEnabled (negb (empty_list ports))
                                   (test_note_button (widgets s)))
                (widgets s)))).
Proof. exact (refresh_midi_outputs_eq connected s). Qed.

End WindowMore.

Section WindowListing.
Context {W : Type} (mido : Backend W).

Lemma refresh_midi_inputs_eq (connected : bool) (s : Proc W) :
  let s0 := snd (MidiManager.list_input_ports mido s) in
  let ports := listed (fst (MidiManager.list_input_ports mido s)) in
  MainWindow._refresh_midi_inputs mido connected s =
  (Ok tt,
   mkProc (world s0) (trace s0) (console s0) (midi_manager s)
          (with_input_combo
             (filled_combo "Select MIDI Input" "No MIDI inputs" ports)
             (widgets s))).
Proof.
  cbv zeta. unfold MainWindow._refresh_midi_inputs.
  rewrite (bind_ok _ _ _ _ _ (list_input_ports_ok mido s)).
  destruct (list_input_ports_frame mido s) as (_ & Hm & Hw).
  destruct (snd (MidiManager.list_input_ports mido s)) as [w0 t0 c0 m0 ui0].
  simpl in Hm, Hw. subst m0 ui0.
  destruct (listed (fst (MidiManager.list_input_ports mido s)))
    as [|n ports];
    destruct connected; unfold combo_change, MainWindow.input_slot;
    unfold_py; simpl; rewrite ?String.eqb_refl;
    destruct (combo_signals_blocked (input_combo (widgets s)));
    simpl; reflexivity.
Qed.

(** X9. [_refresh_midi_inputs] always returns and rebuilds the input combo
    from one listing in the same way as the output one ("No MIDI inputs"
    alone and disabled, or "Select MIDI Input" followed by the ports); it
    does not touch the Test Note button, the output combo or the
    [MidiManager], and never runs the slot. *)
Theorem refresh_midi_inputs_rebuilds_combo (connected : bool) (s : Proc W) :
  let s0 := snd (MidiManager.list_input_ports mido s) in
  let ports := listed (fst (MidiManager.list_input_ports mido s)) in
  MainWindow._refresh_midi_inputs mido connected s =
  (Ok tt,
   mkProc (world s0) (trace s0) (console s0) (midi_manager s)
          (with_input_combo
             (filled_combo "Select MIDI Input" "No MIDI inputs" ports)
             (widgets s))).
Proof. exact (refresh_midi_inputs_eq connected s). Qed.

(** The loop that prints one line per port. *)
Lemma for_each_print (f : string -> string) (xs : list string) (s : Proc W) :
  for_each xs (fun name => print (f name)) s =
  (Ok tt,
   mkProc (world s) (trace s) (console s ++ map f xs)
          (midi_manager s) (widgets s)).
Proof.
  revert s. induction xs as [|x xs IH]; intros s; simpl.
  - unfold ret. rewrite app_nil_r. destruct s; reflexivity.
  - unfold bind, print at 1. rewrite IH. simpl.
    rewrite <- app_assoc. reflexivity.
Qed.

Lemma print_port_lines (ports : list string) (s : Proc W) :
  (if empty_list ports then print "  (none)"
   else for_each ports (fun name => print ("  - " ++ name))) s =
  (Ok tt,
   mkProc (world s) (trace s) (console s ++ port_lines ports)
          (midi_manager s) (widgets s)).
Proof.
  unfold port_lines. destruct ports as [|n ports]; simpl empty_list; cbv iota.
  - reflexivity.
  - apply (for_each_print (fun name => "  - " ++ name)).
Qed.

Lemma log_available_midi_ports_eq (s : Proc W) :
  let s1 := snd (MidiManager.list_output_ports mido s) in
  let outs := listed (fst (MidiManager.list_output_ports mido s)) in
  let s2 := snd (MidiManager.list_input_ports mido s1) in
  let ins := listed (fst (MidiManager.list_input_ports mido s1)) in
  let none := empty_list outs && empty_list ins in
  MainWindow._log_available_midi_ports mido s =
  (Ok tt,
   mkProc (world s2) (trace s2)
          (console s2 ++ "MIDI outputs:" :: port_lines outs
           ++ "MIDI inputs:" :: port_lines ins
           ++ (if none then []
               else ["MIDI ports detected." ++ nl
                     ++ "Select In/Out at the top and use 'Test Note'."]))
          (midi_manager s)
          (if none
           then placeholder_setText
                  ("No MIDI inputs or outputs found." ++ nl
                   ++ "(Is a virtual or hardware MIDI device available?)")
                  (widgets s)
           else widgets s)).
Proof.
  cbv zeta. unfold MainWindow._log_available_midi_ports.
  rewrite (bind_ok _ _ _ _ _ (list_output_ports_ok mido s)).
  destruct (list_output_ports_frame mido s) as (_ & Hm & Hw).
  set (s1 := snd (MidiManager.list_output_ports mido s)) in *.
  rewrite (bind_ok _ _ _ _ _ (list_input_ports_ok mido s1)).
  destruct (list_input_ports_frame mido s1) as (_ & Hm2 & Hw2).
  set (s2 := snd (MidiManager.list_input_ports mido s1)) in *.
  cbv zeta in *. rewrite Hm in Hm2. rewrite Hw in Hw2.
  set (outs := listed (fst (MidiManager.list_output_ports mido s))).
  set (ins := listed (fst (MidiManager.list_input_ports mido s1))).
  rewrite <- Hm2, <- Hw2.
  unfold bind at 1. unfold print at 1.
  unfold bind at 1. rewrite print_port_lines.
  unfold bind at 1. unfold print at 1.
  unfold bind at 1. rewrite print_port_lines. simpl.
  destruct (empty_list outs && empty_list ins); unfold_py;
    cbn [fst snd world trace console midi_manager widgets];
    f_equal; f_equal; rewrite <- !app_assoc, ?app_nil_r; reflexivity.
Qed.

(** X10. [_log_available_midi_ports] always returns.  It lists the outputs
    and then the inputs once each, and prints a header and one line per
    port (or "(none)") for each list.  Only when both lists are empty does
    it write to the placeholder label; otherwise it prints one more line and
    changes no widget.  The [MidiManager] is as before. *)
Theorem log_available_midi_ports_prints_lists (s : Proc W) :
  let s1 := snd (MidiManager.list_output_ports mido s) in
  let outs := listed (fst (MidiManager.list_output_ports mido s)) in
  let s2 := snd (MidiManager.list_input_ports mido s1) in
  let ins := listed (fst (MidiManager.list_input_ports mido s1)) in
  let none := empty_list outs && empty_list ins in
  MainWindow._log_available_midi_ports mido s =
  (Ok tt,
   mkProc (world s2) (trace s2)
          (console s2 ++ "MIDI outputs:" :: port_lines outs
           ++ "MIDI inputs:" :: port_lines ins
           ++ (if none then []
               else ["MIDI ports detected." ++ nl
                     ++ "Select In/Out at the top and use 'Test Note'."]))
          (midi_manager s)
          (if none
           then placeholder_setText
                  ("No MIDI inputs or outputs found." ++ nl
                   ++ "(Is a virtual or hardware MIDI device available?)")
                  (widgets s)
           else widgets s)).
Proof. exact (log_available_midi_ports_eq s). Qed.

End WindowListing.

Section WindowRefresh.
Context {W : Type} (mido : Backend W).

Lemma filled_combo_index (a b : string) (ports : list string) :
  combo_index (filled_combo a b ports) = 0%Z
  /\ combo_signals_blocked (filled_combo a b ports) = false
  /\ combo_enabled (filled_combo a b ports) = negb (empty_list ports).
Proof. unfold filled_combo. destruct ports; repeat split. Qed.

Lemma refresh_outputs_summary (connected : bool) (s : Proc W) :
  exists s',
    MainWindow._refresh_midi_outputs mido connected s = (Ok tt, s')
    /\ trace s' = (trace s ++ [CallGetOutputNames])%list
    /\ midi_manager s' = midi_manager s
    /\ widgets s' =
       with_output_combo
         (filled_combo "Select MIDI Output" "No MIDI outputs"
            (listed (fst (MidiManager.list_output_ports mido s))))
         (with_test_note_button
            (button_setEnabled
               (negb (empty_list
                        (listed (fst (MidiManager.list_output_ports mido s)))))
               (test_note_button (widgets s)))
            (widgets s)).
Proof.
  eexists. split; [apply refresh_midi_outputs_eq|].
  destruct (list_output_ports_frame mido s) as (Ht & _ & _).
  simpl. repeat split. exact Ht.
Qed.

Lemma refresh_inputs_summary (connected : bool) (s : Proc W) :
  exists s',
    MainWindow._refresh_midi_inputs mido connected s = (Ok tt, s')
    /\ trace s' = (trace s ++ [CallGetInputNames])%list
    /\ midi_manager s' = midi_manager s
    /\ widgets s' =
       with_input_combo
         (filled_combo "Select MIDI Input" "No MIDI inputs"
            (listed (fst (MidiManager.list_input_ports mido s))))
         (widgets s).
Proof.
  eexists. split; [apply refresh_midi_inputs_eq|].
  destruct (list_input_ports_frame mido s) as (Ht & _ & _).
  simpl. repeat split. exact Ht.
Qed.

Lemma log_summary (s : Proc W) :
  exists s',
    MainWindow._log_available_midi_ports mido s = (Ok tt, s')
    /\ trace s' = (trace s ++ [CallGetOutputNames; CallGetInputNames])%list
    /\ midi_manager s' = midi_manager s
    /\ same_but_texts (widgets s) (widgets s')
    /\ record_button (widgets s') = record_button (widgets s).
Proof.
  eexists. split; [apply log_available_midi_ports_eq|].
  destruct (list_output_ports_frame mido s) as (Ht & _ & _).
  destruct (list_input_ports_frame mido
              (snd (MidiManager.list_output_ports mido s))) as (Ht2 & _ & _).
  cbv zeta in *. simpl. split; [|split; [reflexivity|]].
  - rewrite Ht2, Ht, <- app_assoc. reflexivity.
  - destruct (empty_list _ && empty_list _); repeat split.
Qed.

(** X11. A click on Refresh MIDI always returns.  It lists the outputs, the
    inputs, and then both once more for the log; the [MidiManager] keeps the
    ports it holds while both combos are rebuilt with their first entry
    current, so the combos no longer show the selection.  The placeholder
    label always ends as "Refreshed MIDI ports." followed by a newline (the
    text written by the log when no port is found is overwritten), and the
    transport buttons are as before. *)
Theorem refresh_clicked_keeps_selection (s : Proc W) :
  let (r, s') := MainWindow._on_refresh_midi_clicked mido s in
  r = Ok tt
  /\ midi_manager s' = midi_manager s
  /\ new_calls s s' = [CallGetOutputNames; CallGetInputNames;
                       CallGetOutputNames; CallGetInputNames]
  /\ label_text (placeholder_label (widgets s')) = "Refreshed MIDI ports." ++ nl
  /\ combo_index (output_combo (widgets s')) = 0%Z
  /\ combo_index (input_combo (widgets s')) = 0%Z
  /\ combo_signals_blocked (output_combo (widgets s')) = false
  /\ combo_signals_blocked (input_combo (widgets s')) = false
  /\ play_button (widgets s') = play_button (widgets s)
  /\ stop_button (widgets s') = stop_button (widgets s)
  /\ record_button (widgets s') = record_button (widgets s).
Proof.
  unfold MainWindow._on_refresh_midi_clicked.
  unfold bind at 1. unfold print at 1.
  set (sa := mkProc (world s) (trace s)
                    (console s ++ ["Refreshing MIDI inputs/outputs..."])
                    (midi_manager s) (widgets s)).
  destruct (refresh_outputs_summary true sa) as (sb & Eb & Tb & Mb & Wb).
  rewrite (bind_ok _ _ _ _ _ Eb).
  destruct (refresh_inputs_summary true sb) as (sc & Ec & Tc & Mc & Wc).
  rewrite (bind_ok _ _ _ _ _ Ec).
  destruct (log_summary sc) as (sd & Ed & Td & Md & Wd & Rd).
  rewrite (bind_ok _ _ _ _ _ Ed).
  unfold set_widgets. cbn [fst snd midi_manager widgets].
  destruct Wd as (Wplay & Wstop & _ & _ & _ & Win & Wout & _).
  split; [reflexivity|]. split; [rewrite Md, Mc, Mb; reflexivity|]. split.
  { apply new_calls_app. cbn [trace].
    rewrite Td, Tc, Tb. cbn [trace sa].
    rewrite <- !app_assoc. reflexivity. }
  split; [reflexivity|].
  cbn [placeholder_setText output_combo input_combo play_button stop_button
       record_button].
  rewrite Wout, Win, Wplay, Wstop, Rd, Wc, Wb.
  cbn [with_input_combo with_output_combo with_test_note_button output_combo
       input_combo play_button stop_button record_button].
  repeat split; apply filled_combo_index.
Qed.

End WindowRefresh.

Section WindowSlots.
Context {W : Type} (mido : Backend W).

(** X12. [_on_output_changed] always returns.  The empty text and the two
    entries that are not ports change nothing (the port that is open stays
    open).  For any other text the label tells what [select_output] did:
    "Selected MIDI output:" exactly when a port is now held under that name,
    "Failed to open MIDI output:" exactly when no output is held. *)
Theorem output_changed_reports_selection (name : string) (s : Proc W) :
  let (r, s') := MainWindow._on_output_changed mido name s in
  r = Ok tt
  /\ if ignored_output_name name then s' = s
     else
       (label_text (placeholder_label (widgets s'))
        = "Selected MIDI output:" ++ nl ++ name
        /\ current_output_name (midi_manager s') = Some name
        /\ current_output (midi_manager s') <> None)
       \/
       (label_text (placeholder_label (widgets s'))
        = "Failed to open MIDI output:" ++ nl ++ name
        /\ current_output_name (midi_manager s') = None
        /\ current_output (midi_manager s') = None).
Proof.
  unfold MainWindow._on_output_changed, ignored_output_name.
  destruct (falsy name || name_in name "Select MIDI Output" "No MIDI outputs")
    eqn:Hign.
  - split; reflexivity.
  - apply orb_false_iff in Hign. destruct Hign as [Hname _].
    unfold bind. rewrite select_output_eq. cbv zeta. rewrite Hname.
    destruct (mido_open_output mido name (world (closed_output mido s)))
      as [[q|e] w']; unfold set_widgets; simpl; (split; [reflexivity|]).
    + left. repeat split. discriminate.
    + right. repeat split.
Qed.

(** X13. [_on_input_changed] always returns and never registers a callback.
    The empty text and the two entries that are not ports change nothing;
    for any other text the label tells whether the port was opened, and a
    message that arrives afterwards is dropped without a trace: nothing is
    called and nothing is printed, although the label announces that
    incoming MIDI will be printed. *)
Theorem input_changed_registers_no_callback
    (name : string) (msg : Message) (s : Proc W) :
  let (r, s') := MainWindow._on_input_changed mido name s in
  r = Ok tt
  /\ if ignored_input_name name then s' = s
     else
       input_callback (midi_manager s') = None
       /\ MidiManager._handle_input_message mido msg s' = (Ok tt, s')
       /\ ((label_text (placeholder_label (widgets s'))
            = "Selected MIDI input:" ++ nl ++ name ++ nl
              ++ "Incoming MIDI will be printed to the console."
            /\ current_input_name (midi_manager s') = Some name
            /\ current_input (midi_manager s') <> None)
           \/
           (label_text (placeholder_label (widgets s'))
            = "Failed to open MIDI input:" ++ nl ++ name
            /\ current_input_name (midi_manager s') = None
            /\ current_input (midi_manager s') = None)).
Proof.
  unfold MainWindow._on_input_changed, ignored_input_name.
  destruct (falsy name || name_in name "Select MIDI Input" "No MIDI inputs")
    eqn:Hign.
  - split; reflexivity.
  - apply orb_false_iff in Hign. destruct Hign as [Hname _].
    unfold bind. rewrite select_input_eq. cbv zeta. rewrite Hname.
    destruct (mido_open_input mido name (world (released_input mido s)))
      as [[q|e] w']; unfold set_widgets;
      cbn [fst snd world trace console midi_manager widgets];
      (split; [reflexivity|]);
      (split; [reflexivity|]);
      (split; [rewrite handle_input_message_eq; reflexivity|]).
    + left. repeat split. discriminate.
    + right. repeat split.
Qed.

Lemma test_note_clicked_eq (s : Proc W) :
  MainWindow._on_test_note_clicked mido s =
  match current_output (midi_manager s) with
  | None =>
      (Ok tt,
       mkProc (world s) (trace s)
              (console s ++ ["Test Note clicked, but no MIDI output selected."])
              (midi_manager s)
              (placeholder_setText
                 ("No MIDI output selected." ++ nl
                  ++ "Choose a device from the 'Out' dropdown first.")
                 (widgets s)))
  | Some p =>
      match port_send mido p (mkMessage "note_on" 0 60 100) (world s) with
      | (Ok _, w') =>
          (Ok tt,
           mkProc w' (trace s ++ [CallSend p (mkMessage "note_on" 0 60 100)])
                  (console s ++ ["Sent test drum note (note 60)."])
                  (midi_manager s)
                  (placeholder_setText
                     ("Sent test drum note." ++ nl
                      ++ "If nothing is heard, check your MIDI routing.")
                     (widgets s)))
      | (Raise e, w') =>
          (Raise e,
           mkProc w' (trace s ++ [CallSend p (mkMessage "note_on" 0 60 100)])
                  (console s) (midi_manager s) (widgets s))
      end
  end.
Proof.
  unfold MainWindow._on_test_note_clicked.
  unfold bind at 1. unfold gets at 1.
  destruct (current_output (midi_manager s)) as [p|] eqn:Hcur.
  - unfold bind. rewrite send_test_note_eq, Hcur. unfold MidiManager.msg_on.
    destruct (port_send mido p (mkMessage "note_on" 0 60 100) (world s))
      as [[[]|e] w']; reflexivity.
  - reflexivity.
Qed.

(** X14. The Test Note slot: with no output held it makes no call, writes
    "No MIDI output selected." to the label and prints one line; with an
    output held it makes exactly one [send] of the test note on it, and the
    label says "Sent test drum note." only if that [send] returned -- when
    [send] raises, the slot raises the same exception and every widget is
    as it was. *)
Theorem test_note_clicked_reports_send (s : Proc W) :
  MainWindow._on_test_note_clicked mido s =
  match current_output (midi_manager s) with
  | None =>
      (Ok tt,
       mkProc (world s) (trace s)
              (console s ++ ["Test Note clicked, but no MIDI output selected."])
              (midi_manager s)
              (placeholder_setText
                 ("No MIDI output selected." ++ nl
                  ++ "Choose a device from the 'Out' dropdown first.")
                 (widgets s)))
  | Some p =>
      match port_send mido p (mkMessage "note_on" 0 60 100) (world s) with
      | (Ok _, w') =>
          (Ok tt,
           mkProc w' (trace s ++ [CallSend p (mkMessage "note_on" 0 60 100)])
                  (console s ++ ["Sent test drum note (note 60)."])
                  (midi_manager s)
                  (placeholder_setText
                     ("Sent test drum note." ++ nl
                      ++ "If nothing is heard, check your MIDI routing.")
                     (widgets s)))
      | (Raise e, w') =>
          (Raise e,
           mkProc w' (trace s ++ [CallSend p (mkMessage "note_on" 0 60 100)])
                  (console s) (midi_manager s) (widgets s))
      end
  end.
Proof. exact (test_note_clicked_eq s). Qed.

End WindowSlots.

Section Application.
Context {W : Type} (mido : Backend W).

Lemma select_output_keeps_widgets (name : string) (s : Proc W) :
  widgets (snd (MidiManager.select_output mido name s)) = widgets s.
Proof.
  rewrite select_output_eq. cbv zeta.
  assert (H : widgets (closed_output mido s) = widgets s).
  { unfold closed_output.
    destruct (current_output (midi_manager s)); reflexivity. }
  destruct (falsy name); [exact H|].
  destruct (mido_open_output mido name (world (closed_output mido s)))
    as [[q|e] w']; exact H.
Qed.

Lemma select_input_keeps_widgets
    (name : string) (cb : option callback) (s : Proc W) :
  widgets (snd (MidiManager.select_input mido name cb s)) = widgets s.
Proof.
  rewrite select_input_eq. cbv zeta.
  assert (H : widgets (released_input mido s) = widgets s).
  { unfold released_input.
    destruct (current_input (midi_manager s)); reflexivity. }
  destruct (falsy name); [exact H|].
  destruct (mido_open_input mido name (world (released_input mido s)))
    as [[q|e] w']; exact H.
Qed.

Lemma select_input_none_callback (name : string) (s : Proc W) :
  input_callback (midi_manager s) = None ->
  input_callback (midi_manager (snd (MidiManager.select_input mido name None s)))
  = None.
Proof.
  intros H. rewrite select_input_eq. cbv zeta.
  assert (H1 : input_callback (midi_manager (released_input mido s)) = None).
  { unfold released_input.
    destruct (current_input (midi_manager s)); [reflexivity | exact H]. }
  destruct (falsy name); [exact H1|].
  destruct (mido_open_input mido name (world (released_input mido s)))
    as [[q|e] w']; reflexivity.
Qed.

Lemma select_output_keeps_callback (name : string) (s : Proc W) :
  input_callback (midi_manager (snd (MidiManager.select_output mido name s)))
  = input_callback (midi_manager s).
Proof.
  rewrite select_output_eq. cbv zeta.
  assert (H : input_callback (midi_manager (closed_output mido s))
              = input_callback (midi_manager s)).
  { unfold closed_output.
    destruct (current_output (midi_manager s)); reflexivity. }
  destruct (falsy name); [exact H|].
  destruct (mido_open_output mido name (world (closed_output mido s)))
    as [[q|e] w']; exact H.
Qed.

(** The invariant only reads what [same_but_texts] keeps. *)
Lemma app_inv_frame (s s' : Proc W) :
  app_inv s ->
  input_callback (midi_manager s') = None ->
  paired (midi_manager s') = true ->
  same_but_texts (widgets s) (widgets s') ->
  app_inv s'.
Proof.
  intros (_ & _ & Ht & Ho & Hi & Hr) Hcb Hp
         (_ & _ & _ & Hc & _ & Hin & Hout & Htn & _).
  unfold app_inv. rewrite Hin, Hout, Htn, Hc. repeat split; assumption.
Qed.

Lemma same_but_texts_refl (w : Widgets) : same_but_texts w w.
Proof. repeat split. Qed.

Lemma init_summary (s : Proc W) :
  exists s',
    MainWindow.__init__ mido s = (Ok tt, s')
    /\ midi_manager s' = MidiManager.__init__
    /\ trace s' = (trace s ++ [CallGetOutputNames; CallGetInputNames;
                               CallGetOutputNames; CallGetInputNames])%list
    /\ app_inv s'
    /\ play_button (widgets s') = mkButton "Play" true false false
    /\ stop_button (widgets s') = mkButton "Stop" true false false
    /\ record_button (widgets s') = mkButton "Record" true true false
    /\ refresh_midi_button (widgets s') = mkButton "Refresh MIDI" true false false
    /\ combo_index (output_combo (widgets s')) = 0%Z
    /\ combo_index (input_combo (widgets s')) = 0%Z.
Proof.
  unfold MainWindow.__init__, MainWindow._create_central_widget.
  unfold bind at 1. unfold set_manager at 1.
  unfold bind at 1. unfold bind at 1. unfold set_widgets at 1.
  cbn [trace world console midi_manager widgets].
  set (sa := mkProc (world s) (trace s) (console s) MidiManager.__init__
                    created_widgets).
  destruct (refresh_outputs_summary mido false sa) as (sb & Eb & Tb & Mb & Wb).
  rewrite (bind_ok _ _ _ _ _ Eb).
  destruct (refresh_inputs_summary mido false sb) as (sc & Ec & Tc & Mc & Wc).
  rewrite Ec.
  destruct (log_summary mido sc) as (sd & Ed & Td & Md & Wd & Rd).
  exists sd. split; [exact Ed|].
  assert (Hm : midi_manager sd = MidiManager.__init__)
    by (rewrite Md, Mc, Mb; reflexivity).
  split; [exact Hm|]. split.
  { rewrite Td, Tc, Tb. cbn [trace sa]. rewrite <- !app_assoc. reflexivity. }
  destruct Wd as (Wplay & Wstop & _ & Wck & _ & Win & Wout & Wtn & Wref & _).
  unfold app_inv.
  rewrite Hm, Wout, Win, Wtn, Wck, Wplay, Wstop, Rd, Wref, Wc, Wb.
  cbn [with_input_combo with_output_combo with_test_note_button output_combo
       input_combo play_button stop_button record_button test_note_button
       refresh_midi_button sa widgets created_widgets button_setEnabled
       button_enabled button_setCheckable button_checkable].
  destruct (filled_combo_index "Select MIDI Output" "No MIDI outputs"
              (listed (fst (MidiManager.list_output_ports mido sa))))
    as (Io & Bo & Eo).
  destruct (filled_combo_index "Select MIDI Input" "No MIDI inputs"
              (listed (fst (MidiManager.list_input_ports mido sb))))
    as (Ii & Bi & Ei).
  rewrite Io, Bo, Eo, Ii, Bi.
  repeat split.
Qed.

(** X15. Constructing the window always returns, whatever the devices do.
    It leaves a fresh [MidiManager] (no port, no name, no callback), has
    listed the outputs and the inputs twice (once for the combos, once for
    the log), and has built the buttons with their captions, the Record
    button checkable and unchecked, and both combos with their first entry
    current. *)
Theorem window_init_builds_fresh_window (s : Proc W) :
  let (r, s') := MainWindow.__init__ mido s in
  r = Ok tt
  /\ midi_manager s' = MidiManager.__init__
  /\ new_calls s s' = [CallGetOutputNames; CallGetInputNames;
                       CallGetOutputNames; CallGetInputNames]
  /\ play_button (widgets s') = mkButton "Play" true false false
  /\ stop_button (widgets s') = mkButton "Stop" true false false
  /\ record_button (widgets s') = mkButton "Record" true true false
  /\ refresh_midi_button (widgets s') = mkButton "Refresh MIDI" true false false
  /\ combo_index (output_combo (widgets s')) = 0%Z
  /\ combo_index (input_combo (widgets s')) = 0%Z.
Proof.
  destruct (init_summary s) as (s' & E & Hm & Ht & _ & H).
  rewrite E. split; [reflexivity|]. split; [exact Hm|].
  split; [apply new_calls_app; exact Ht | exact H].
Qed.

End Application.

Section ApplicationInvariants.
Context {W : Type} (mido : Backend W).

Lemma output_changed_summary (name : string) (s : Proc W) :
  let s1 := snd (MidiManager.select_output mido name s) in
  let s' := snd (MainWindow._on_output_changed mido name s) in
  s' = s
  \/ (midi_manager s' = midi_manager s1 /\ trace s' = trace s1
      /\ exists t, widgets s' = placeholder_setText t (widgets s)).
Proof.
  cbv zeta. unfold MainWindow._on_output_changed.
  destruct (falsy name || name_in name "Select MIDI Output" "No MIDI outputs");
    [left; reflexivity|].
  right. unfold bind.
  assert (Hw := select_output_keeps_widgets mido name s).
  assert (Hr : raises (fst (MidiManager.select_output mido name s)) = false)
    by apply (guarded_methods_never_raise mido name None
                (mkMessage "" 0 0 0) s).
  destruct (MidiManager.select_output mido name s) as [[[|]|e] s1];
    try discriminate; unfold set_widgets; simpl in *; rewrite Hw;
    repeat split; eexists; reflexivity.
Qed.

Lemma input_changed_summary (name : string) (s : Proc W) :
  let s1 := snd (MidiManager.select_input mido name None s) in
  let s' := snd (MainWindow._on_input_changed mido name s) in
  s' = s
  \/ (midi_manager s' = midi_manager s1 /\ trace s' = trace s1
      /\ exists t, widgets s' = placeholder_setText t (widgets s)).
Proof.
  cbv zeta. unfold MainWindow._on_input_changed.
  destruct (falsy name || name_in name "Select MIDI Input" "No MIDI inputs");
    [left; reflexivity|].
  right. unfold bind.
  assert (Hw := select_input_keeps_widgets mido name None s).
  assert (Hr : raises (fst (MidiManager.select_input mido name None s)) = false)
    by apply (guarded_methods_never_raise mido name None
                (mkMessage "" 0 0 0) s).
  destruct (MidiManager.select_input mido name None s) as [[[|]|e] s1];
    try discriminate; unfold set_widgets; simpl in *; rewrite Hw;
    repeat split; eexists; reflexivity.
Qed.

Lemma refresh_clicked_summary (s : Proc W) :
  exists s',
    MainWindow._on_refresh_midi_clicked mido s = (Ok tt, s')
    /\ midi_manager s' = midi_manager s
    /\ button_enabled (test_note_button (widgets s'))
       = combo_enabled (output_combo (widgets s'))
    /\ combo_signals_blocked (output_combo (widgets s')) = false
    /\ combo_signals_blocked (input_combo (widgets s')) = false
    /\ button_checkable (record_button (widgets s'))
       = button_checkable (record_button (widgets s)).
Proof.
  unfold MainWindow._on_refresh_midi_clicked.
  unfold bind at 1. unfold print at 1.
  set (sa := mkProc (world s) (trace s)
                    (console s ++ ["Refreshing MIDI inputs/outputs..."])
                    (midi_manager s) (widgets s)).
  destruct (refresh_outputs_summary mido true sa) as (sb & Eb & Tb & Mb & Wb).
  rewrite (bind_ok _ _ _ _ _ Eb).
  destruct (refresh_inputs_summary mido true sb) as (sc & Ec & Tc & Mc & Wc).
  rewrite (bind_ok _ _ _ _ _ Ec).
  destruct (log_summary mido sc) as (sd & Ed & Td & Md & Wd & Rd).
  rewrite (bind_ok _ _ _ _ _ Ed).
  unfold set_widgets. eexists. split; [reflexivity|].
  cbn [midi_manager widgets].
  destruct Wd as (_ & _ & _ & Wck & _ & Win & Wout & Wtn & _).
  split; [rewrite Md, Mc, Mb; reflexivity|].
  cbn [placeholder_setText output_combo input_combo test_note_button
       record_button].
  rewrite Wout, Win, Wtn, Wck, Wc, Wb.
  cbn [with_input_combo with_output_combo with_test_note_button output_combo
       input_combo test_note_button record_button button_setEnabled
       button_enabled button_checkable sa widgets].
  destruct (filled_combo_index "Select MIDI Output" "No MIDI outputs"
              (listed (fst (MidiManager.list_output_ports mido sa))))
    as (_ & Bo & Eo).
  destruct (filled_combo_index "Select MIDI Input" "No MIDI inputs"
              (listed (fst (MidiManager.list_input_ports mido sb))))
    as (_ & Bi & _).
  rewrite Bo, Eo, Bi. repeat split.
Qed.

Lemma handle_keeps_app_inv (ev : Event) (s : Proc W) :
  app_inv s -> app_inv (handle mido ev s).
Proof.
  intros Hinv. pose proof Hinv as (Hcb & Hp & Ht & Ho & Hi & Hr).
  destruct ev; simpl.
  - apply (app_inv_frame s); try assumption. repeat split.
  - apply (app_inv_frame s); try assumption. repeat split.
  - destruct checked; (apply (app_inv_frame s); try assumption; repeat split).
  - destruct (output_changed_summary name s) as [E | (Hm & _ & t & Hw)].
    + cbv zeta in E. rewrite E. exact Hinv.
    + cbv zeta in Hm, Hw. apply (app_inv_frame s); try assumption.
      * rewrite Hm, select_output_keeps_callback. exact Hcb.
      * rewrite Hm. apply select_output_paired. exact Hp.
      * rewrite Hw. repeat split.
  - destruct (input_changed_summary name s) as [E | (Hm & _ & t & Hw)].
    + cbv zeta in E. rewrite E. exact Hinv.
    + cbv zeta in Hm, Hw. apply (app_inv_frame s); try assumption.
      * rewrite Hm. apply select_input_none_callback. exact Hcb.
      * rewrite Hm. apply select_input_paired. exact Hp.
      * rewrite Hw. repeat split.
  - rewrite test_note_clicked_eq.
    destruct (current_output (midi_manager s)) as [p|].
    + destruct (port_send mido p (mkMessage "note_on" 0 60 100) (world s))
        as [[[]|e] w'];
        (apply (app_inv_frame s); try assumption; repeat split).
    + apply (app_inv_frame s); try assumption; repeat split.
  - destruct (refresh_clicked_summary s)
      as (s' & E & Hm & Ht' & Ho' & Hi' & Hr').
    rewrite E. unfold app_inv. cbn [snd].
    rewrite Hm, Ht', Ho', Hi', Hr'. repeat split; assumption.
  - rewrite handle_input_message_eq, Hcb. exact Hinv.
Qed.

Lemma app_state_inv (s : Proc W) : app_state mido s -> app_inv s.
Proof.
  induction 1 as [s0 | ev s Hs IH | w s Hs IH].
  - destruct (init_summary mido s0) as (s' & E & _ & _ & Hinv & _).
    rewrite E. exact Hinv.
  - apply handle_keeps_app_inv; exact IH.
  - exact IH.
Qed.

(** X16. In the application as the window wires it, incoming MIDI is never
    delivered: in every state reached from the construction of the window by
    clicks, combo changes, refreshes, incoming messages and changes of the
    device world, no callback is registered, so [_handle_input_message]
    returns without calling or printing anything and leaves the state as it
    is. *)
Theorem app_never_delivers_midi (msg : Message) (s : Proc W) :
  app_state mido s ->
  input_callback (midi_manager s) = None
  /\ MidiManager._handle_input_message mido msg s = (Ok tt, s).
Proof.
  intros Hs. destruct (app_state_inv s Hs) as (Hcb & _).
  split; [exact Hcb|]. rewrite handle_input_message_eq, Hcb. reflexivity.
Qed.

(** X17. In every state of the application the ports are paired with their
    names, the Test Note button is enabled exactly when the output combo is
    (that is, when the last refresh listed an output), the signals of both
    combos are unblocked, and the Record button is checkable. *)
Theorem app_window_invariants (s : Proc W) :
  app_state mido s ->
  paired (midi_manager s) = true
  /\ button_enabled (test_note_button (widgets s))
     = combo_enabled (output_combo (widgets s))
  /\ combo_signals_blocked (output_combo (widgets s)) = false
  /\ combo_signals_blocked (input_combo (widgets s)) = false
  /\ button_checkable (record_button (widgets s)) = true.
Proof.
  intros Hs. destruct (app_state_inv s Hs) as (_ & H). exact H.
Qed.

End ApplicationInvariants.

Section PortsAreClosed.
Context {W : Type} (mido : Backend W).

Lemma In_new_calls (s s' : Proc W) (c : Call) (l : list Call) :
  trace s' = (trace s ++ l)%list -> In c l -> In c (new_calls s s').
Proof. intros Ht Hin. rewrite (new_calls_app s s' l Ht). exact Hin. Qed.

Lemma keeps_ports (s s' : Proc W) :
  midi_manager s' = midi_manager s -> closes_what_it_drops s s'.
Proof. intros H. split; intros p Hp; left; rewrite H; exact Hp. Qed.

Lemma closes_transfer (s s1 s' : Proc W) :
  midi_manager s' = midi_manager s1 -> trace s' = trace s1 ->
  closes_what_it_drops s s1 -> closes_what_it_drops s s'.
Proof.
  unfold closes_what_it_drops, new_calls. intros Hm Ht. rewrite Hm, Ht.
  exact (fun H => H).
Qed.

Lemma select_output_closes (name : string) (s : Proc W) :
  closes_what_it_drops s (snd (MidiManager.select_output mido name s)).
Proof.
  split; intros p Hp.
  - right. rewrite select_output_eq. cbv zeta.
    assert (Ht : trace (closed_output mido s) = (trace s ++ [CallClose p])%list)
      by (unfold closed_output; rewrite Hp; reflexivity).
    destruct (falsy name).
    + apply (In_new_calls _ _ _ [CallClose p]); [exact Ht | left; reflexivity].
    + destruct (mido_open_output mido name (world (closed_output mido s)))
        as [[q|e] w'];
        (apply (In_new_calls _ _ _ [CallClose p; CallOpenOutput name]);
         [simpl; rewrite Ht, <- app_assoc; reflexivity | left; reflexivity]).
  - left. rewrite <- Hp. rewrite select_output_eq. cbv zeta.
    assert (H := closed_output_keeps_input mido s).
    destruct (falsy name); [exact H|].
    destruct (mido_open_output mido name (world (closed_output mido s)))
      as [[q|e] w']; exact H.
Qed.

Lemma released_input_keeps_output (s : Proc W) :
  current_output (midi_manager (released_input mido s))
  = current_output (midi_manager s).
Proof.
  unfold released_input. destruct (current_input (midi_manager s)); reflexivity.
Qed.

Lemma select_input_closes
    (name : string) (cb : option callback) (s : Proc W) :
  closes_what_it_drops s (snd (MidiManager.select_input mido name cb s)).
Proof.
  split; intros p Hp.
  - left. rewrite <- Hp. rewrite select_input_eq. cbv zeta.
    assert (H := released_input_keeps_output s).
    destruct (falsy name); [exact H|].
    destruct (mido_open_input mido name (world (released_input mido s)))
      as [[q|e] w']; exact H.
  - right. rewrite select_input_eq. cbv zeta.
    assert (Ht : trace (released_input mido s) = (trace s ++ [CallClose p])%list)
      by (unfold released_input; rewrite Hp; reflexivity).
    destruct (falsy name).
    + apply (In_new_calls _ _ _ [CallClose p]); [exact Ht | left; reflexivity].
    + destruct (mido_open_input mido name (world (released_input mido s)))
        as [[q|e] w'];
        (apply (In_new_calls _ _ _ [CallClose p; CallOpenInput name]);
         [simpl; rewrite Ht, <- app_assoc; reflexivity | left; reflexivity]).
Qed.

Lemma close_all_closes (s : Proc W) :
  closes_what_it_drops s (snd (MidiManager.close_all mido s)).
Proof.
  rewrite close_all_eq. cbn [snd].
  assert (Ht : trace (closed_input mido (closed_output mido s))
               = (trace s
                  ++ map CallClose
                       (opt_list (current_output (midi_manager s))
                        ++ opt_list (current_input (midi_manager s))))%list).
  { unfold closed_input. rewrite closed_output_keeps_input.
    unfold closed_output.
    destruct (current_output (midi_manager s));
      destruct (current_input (midi_manager s)); simpl;
      rewrite <- ?app_assoc, ?app_nil_r; reflexivity. }
  split; intros p Hp; right;
    apply (In_new_calls _ _ _ _ Ht); rewrite Hp;
    apply in_map, in_or_app; [left | right]; left; reflexivity.
Qed.

Lemma run_closes (op : Op) (s : Proc W) :
  closes_what_it_drops s (run mido op s).
Proof.
  destruct op; simpl.
  - apply keeps_ports, list_output_ports_keeps_manager.
  - apply keeps_ports, list_input_ports_keeps_manager.
  - apply select_output_closes.
  - apply select_input_closes.
  - apply keeps_ports, send_test_note_keeps_manager.
  - apply keeps_ports, send_message_keeps_manager.
  - apply keeps_ports, handle_input_message_keeps_manager.
  - apply close_all_closes.
  - apply keeps_ports; reflexivity.
  - apply keeps_ports; reflexivity.
  - apply keeps_ports; destruct checked; reflexivity.
  - destruct (output_changed_summary mido name s) as [E | (Hm & Ht & _)];
      cbv zeta in *.
    + rewrite E. apply keeps_ports; reflexivity.
    + exact (closes_transfer _ _ _ Hm Ht (select_output_closes name s)).
  - destruct (input_changed_summary mido name s) as [E | (Hm & Ht & _)];
      cbv zeta in *.
    + rewrite E. apply keeps_ports; reflexivity.
    + exact (closes_transfer _ _ _ Hm Ht (select_input_closes name None s)).
  - apply keeps_ports, test_note_clicked_keeps_manager.
Qed.

Lemma handle_closes (ev : Event) (s : Proc W) :
  closes_what_it_drops s (handle mido ev s).
Proof.
  destruct ev.
  - exact (run_closes Op_play_clicked s).
  - exact (run_closes Op_stop_clicked s).
  - exact (run_closes (Op_record_toggled checked) s).
  - exact (run_closes (Op_output_changed name) s).
  - exact (run_closes (Op_input_changed name) s).
  - exact (run_closes Op_test_note_clicked s).
  - simpl. destruct (refresh_clicked_summary mido s) as (s' & E & Hm & _).
    rewrite E. apply keeps_ports. exact Hm.
  - exact (run_closes (Op_handle_input_message msg) s).
Qed.

(** X18. No method of [MidiManager] and no slot of the window drops a port
    without closing it: after any call, a port that was held is still held,
    or [close()] was called on it during the call. *)
Theorem never_drops_port_without_close (op : Op) (ev : Event) (s : Proc W) :
  closes_what_it_drops s (run mido op s)
  /\ closes_what_it_drops s (handle mido ev s).
Proof. split; [apply run_closes | apply handle_closes]. Qed.

End PortsAreClosed.

(** ** Further runs on the bench *)

Example window_on_bench :
  widgets (snd (MainWindow.__init__ Bench.backend Bench.boot)) = Bench.ui
  /\ console (snd (MainWindow.__init__ Bench.backend Bench.boot))
     = ["MIDI outputs:"; "  - Drum"; "  - Synth"; "MIDI inputs:"; "  - Pads";
        "MIDI ports detected." ++ nl
        ++ "Select In/Out at the top and use 'Test Note'."].
Proof. split; reflexivity. Qed.

Example refresh_on_unplugged_rig :
  let s' := snd (MainWindow._on_refresh_midi_clicked Bench.backend
                   Bench.drum_unplugged) in
  output_combo (widgets s') = mkCombo ["No MIDI outputs"] false 0 false
  /\ button_enabled (test_note_button (widgets s')) = false
  /\ current_output (midi_manager s') = Some 1%nat.
Proof. repeat split. Qed.

(** Were the signals not blocked, filling an empty combo would run the
    slot on the first port and open it. *)
Example unblocked_change_runs_slot :
  let s0 := mkProc Bench.rig [] [] MidiManager.__init__ created_widgets in
  trace (snd (combo_change output_combo with_output_combo
                (MainWindow.output_slot Bench.backend true)
                (combo_addItems ["Drum"; "Synth"]) s0))
  = [CallOpenOutput "Drum"].
Proof. reflexivity. Qed.

(** ** Instances of the further properties *)

Lemma select_success_selects_opened_port_witness :
  (let (r, s') :=
     MidiManager.select_output Bench.backend "Synth" Bench.both_selected in
   r = Ok true
   /\ current_output (midi_manager s') = Some 3%nat
   /\ current_output_name (midi_manager s') = Some "Synth")
  /\
  (let (r, s') :=
     MidiManager.select_input Bench.backend "Pads" (Some 7%nat)
                              Bench.both_selected in
   r = Ok true
   /\ current_input (midi_manager s') = Some 3%nat
   /\ input_callback (midi_manager s') = Some 7%nat).
Proof.
  destruct (select_success_selects_opened_port Bench.backend
              "Synth" (Some 7%nat) Bench.both_selected 3%nat eq_refl)
    as [Hout _].
  destruct (select_success_selects_opened_port Bench.backend
              "Pads" (Some 7%nat) Bench.both_selected 3%nat eq_refl)
    as [_ Hin].
  specialize (Hout eq_refl). specialize (Hin eq_refl).
  destruct (MidiManager.select_output Bench.backend "Synth" Bench.both_selected)
    as [r s1].
  destruct (MidiManager.select_input Bench.backend "Pads" (Some 7%nat)
              Bench.both_selected) as [r' s2].
  destruct Hout as (H1 & H2 & H3 & _). destruct Hin as (H4 & H5 & _ & H6 & _).
  repeat split; assumption.
Defined.

Lemma close_all_keeps_callback_live_witness :
  input_callback (midi_manager Bench.both_selected) = Some 0%nat
  /\ input_callback
       (midi_manager (snd (MidiManager.close_all Bench.backend
                             Bench.both_selected))) = Some 0%nat.
Proof.
  split; [reflexivity|].
  exact (proj1 (proj2 (close_all_keeps_callback_live Bench.backend
                         (mkMessage "note_on" 9 36 90) 0%nat
                         Bench.both_selected eq_refl))).
Defined.

Lemma send_test_note_is_send_message_witness :
  current_output (midi_manager Bench.drum_unplugged) = Some 1%nat
  /\ fst (MidiManager.send_test_note Bench.backend Bench.drum_unplugged)
     = fst (MidiManager.send_message Bench.backend
              (mkMessage "note_on" 0 60 100) Bench.drum_unplugged).
Proof.
  split; [reflexivity|].
  assert (H := send_test_note_is_send_message Bench.backend
                 Bench.drum_unplugged 1%nat eq_refl).
  destruct (MidiManager.send_message Bench.backend
              (mkMessage "note_on" 0 60 100) Bench.drum_unplugged)
    as [r s1] eqn:E.
  rewrite H. revert E. vm_compute. intros E. inversion E. reflexivity.
Defined.

Lemma app_never_delivers_midi_witness :
  app_state Bench.backend bench_app
  /\ current_input (midi_manager bench_app) = Some 2%nat
  /\ MidiManager._handle_input_message Bench.backend
       (mkMessage "note_on" 9 36 90) bench_app = (Ok tt, bench_app).
Proof.
  assert (R : app_state Bench.backend bench_app)
    by (unfold bench_app; do 3 apply app_event; apply app_start).
  split; [exact R|]. split; [reflexivity|].
  exact (proj2 (app_never_delivers_midi Bench.backend
                  (mkMessage "note_on" 9 36 90) bench_app R)).
Defined.

Lemma app_window_invariants_witness :
  app_state Bench.backend bench_app
  /\ button_enabled (test_note_button (widgets bench_app))
     = combo_enabled (output_combo (widgets bench_app)).
Proof.
  assert (R : app_state Bench.backend bench_app)
    by (unfold bench_app; do 3 apply app_event; apply app_start).
  split; [exact R|].
  exact (proj1 (proj2 (app_window_invariants Bench.backend bench_app R))).
Defined.

Lemma never_drops_port_without_close_witness :
  current_input (midi_manager Bench.both_selected) = Some 2%nat
  /\ (current_input
        (midi_manager (run Bench.backend Op_close_all Bench.both_selected))
      = Some 2%nat
      \/ In (CallClose 2)
            (new_calls Bench.both_selected
               (run Bench.backend Op_close_all Bench.both_selected))).
Proof.
  split; [reflexivity|].
  exact (proj2 (proj1 (never_drops_port_without_close Bench.backend
                         Op_close_all Ev_refresh Bench.both_selected))
               2%nat eq_refl).
Defined.
